(** * swipeable-views-fc: the gesture engine of [index.tsx]

    A shallow embedding of [packages/swipeable-views-fc/src/index.tsx]:
    the axis table, the rotation of touch samples, the start and move
    handlers of the swipe gesture, the transform applied to the container,
    the bounds check done on mount and the modulo helper.

    JavaScript numbers are embedded as rationals extended with [Infinity],
    [-Infinity] and [NaN], with the special values and the coercions the
    code relies on ([||], [Boolean], [===], [parseInt]).  The sum of the
    modulo helper and the integers [parseInt] reads are rounded to the
    nearest double; the arithmetic of the handlers is exact, and the sign
    of zero is not represented.

    A handler is a computation over the refs of its instance, the
    module-level [nodeWhoClaimedTheScroll] and a trace of effects, which
    completes normally, by [return] or by [throw].  The names the file uses
    without defining them ([constant], [computeIndex], [getDomTreeShapes],
    [findNativeHandler]) are parameters. *)

From Stdlib Require Import ZArith QArith Qround Qabs Qreduction Lia Lqa Bool List.
From Stdlib Require Import Ascii String DecimalString.
Import ListNotations.

(** ** Numbers *)

Module Number.

Inductive number : Type :=
| Num (q : Q)
| Infinity
| NegInfinity
| NaN.

Definition zero : number := Num 0.
Definition ofZ (z : Z) : number := Num (inject_Z z).

(** The sign of a rational: [-1], [0] or [1]. *)
Definition Qsign (q : Q) : Z := Z.sgn (Qnum q).
Definition Qis_zero (q : Q) : bool := (Qnum q =? 0)%Z.
Definition Qltb (a b : Q) : bool := negb (Qle_bool b a).

Definition signed_infinity (s : Z) : number :=
  if (s <? 0)%Z then NegInfinity else Infinity.

Definition neg (a : number) : number :=
  match a with
  | Num q => Num (- q)
  | Infinity => NegInfinity
  | NegInfinity => Infinity
  | NaN => NaN
  end.

Definition add (a b : number) : number :=
  match a, b with
  | NaN, _ | _, NaN => NaN
  | Num x, Num y => Num (x + y)
  | Infinity, NegInfinity | NegInfinity, Infinity => NaN
  | Infinity, _ | _, Infinity => Infinity
  | NegInfinity, _ | _, NegInfinity => NegInfinity
  end.

Definition sub (a b : number) : number := add a (neg b).

(** Sign of a non-NaN number. *)
Definition sign (a : number) : Z :=
  match a with
  | Num q => Qsign q
  | Infinity => 1
  | NegInfinity => -1
  | NaN => 0
  end.

Definition mul (a b : number) : number :=
  match a, b with
  | NaN, _ | _, NaN => NaN
  | Num x, Num y => Num (x * y)
  | _, _ =>
      (* at least one factor is infinite: 0 * Infinity is NaN *)
      if (sign a * sign b =? 0)%Z then NaN
      else signed_infinity (sign a * sign b)
  end.

(** Division; a finite non-zero number over zero is an infinity (of the
    sign of the dividend, the zero being taken as [+0]), [0 / 0] is
    [NaN]. *)
Definition div (a b : number) : number :=
  match a, b with
  | NaN, _ | _, NaN => NaN
  | Num x, Num y =>
      if Qis_zero y then
        if Qis_zero x then NaN else signed_infinity (Qsign x)
      else Num (x / y)
  | Num _, _ => Num 0
  | _, Num y => signed_infinity (sign a * (if Qis_zero y then 1 else Qsign y))
  | _, _ => NaN
  end.

Definition abs (a : number) : number :=
  match a with
  | Num q => Num (Qabs q)
  | Infinity | NegInfinity => Infinity
  | NaN => NaN
  end.

(** [a < b]; false as soon as one side is [NaN]. *)
Definition ltb (a b : number) : bool :=
  match a, b with
  | NaN, _ | _, NaN => false
  | Num x, Num y => Qltb x y
  | NegInfinity, NegInfinity => false
  | NegInfinity, _ => true
  | _, Infinity => match a with Infinity => false | _ => true end
  | _, _ => false
  end.

Definition gtb (a b : number) : bool := ltb b a.

(** [a <= b] and [a >= b]. *)
Definition leb (a b : number) : bool :=
  match a, b with
  | NaN, _ | _, NaN => false
  | Num x, Num y => Qle_bool x y
  | NegInfinity, _ => true
  | _, Infinity => true
  | _, _ => false
  end.

Definition geb (a b : number) : bool := leb b a.

(** Strict equality [===] of two numbers: [NaN] differs from itself. *)
Definition strict_eqb (a b : number) : bool :=
  match a, b with
  | Num x, Num y => Qeq_bool x y
  | Infinity, Infinity => true
  | NegInfinity, NegInfinity => true
  | _, _ => false
  end.

(** [Boolean(a)]: every number but zero and [NaN] is truthy. *)
Definition truthy (a : number) : bool :=
  match a with
  | Num q => negb (Qis_zero q)
  | Infinity | NegInfinity => true
  | NaN => false
  end.

(** [a || b] on numbers. *)
Definition or_else (a b : number) : number := if truthy a then a else b.

Definition is_finite (a : number) : bool :=
  match a with Num _ => true | _ => false end.

Definition is_nan (a : number) : bool :=
  match a with NaN => true | _ => false end.

(** Truncation toward zero of a rational. *)
Definition Qtrunc (q : Q) : Z :=
  if (Qnum q <? 0)%Z then Qceiling q else Qfloor q.

(** The remainder operator [%]: the result has the sign of the dividend. *)
Definition rem (a b : number) : number :=
  match a, b with
  | Num x, Num y =>
      if Qis_zero y then NaN
      else Num (x - y * inject_Z (Qtrunc (x / y)))
  | Num x, (Infinity | NegInfinity) => Num x
  | _, _ => NaN
  end.

(** The same number: rationals up to [Qeq], special values up to
    identity. *)
Definition same (a b : number) : Prop :=
  match a, b with
  | Num x, Num y => x == y
  | Infinity, Infinity | NegInfinity, NegInfinity | NaN, NaN => True
  | _, _ => False
  end.

(** Rounding to the nearest double.  [pow2 e] is [2^e]. *)
Definition pow2 (e : Z) : Q :=
  if (0 <=? e)%Z then inject_Z (2 ^ e) else / inject_Z (2 ^ (- e)).

(** [floor (log2 |q|)], for [q] other than zero. *)
Definition Qlog2 (q : Q) : Z :=
  let l := (Z.log2 (Z.abs (Qnum q)) - Z.log2 (Zpos (Qden q)))%Z in
  if Qle_bool (pow2 l) (Qabs q) then l else (l - 1)%Z.

(** The nearest integer, ties to even. *)
Definition halfEven (x : Q) : Z :=
  let f := Qfloor x in
  match Qcompare (x - inject_Z f) (1 # 2) with
  | Lt => f
  | Gt => (f + 1)%Z
  | Eq => if Z.even f then f else (f + 1)%Z
  end.

(** The nearest number with a significand of 53 bits and an exponent of at
    least -1074, ties to even. *)
Definition nearest (q : Q) : Q :=
  if Qis_zero q then q
  else
    let e := Z.max (Qlog2 q - 52) (-1074) in
    inject_Z (Qsign q * halfEven (Qabs q * pow2 (- e))) * pow2 e.

(** The double a rational rounds to: the rational itself when it is a
    double, an infinity from [2^1024] on. *)
Definition toDouble (q : Q) : number :=
  let r := nearest (Qred q) in
  if Qle_bool (pow2 1024) (Qabs r) then signed_infinity (Qsign q)
  else if Qeq_bool r q then Num q else Num r.

(** [a + b], rounded as the addition of doubles is. *)
Definition add_double (a b : number) : number :=
  match add a b with
  | Num q => toDouble q
  | other => other
  end.

End Number.
Export Number.

Declare Scope number_scope.
Delimit Scope number_scope with num.
Infix "+" := add : number_scope.
Infix "-" := sub : number_scope.
Infix "*" := mul : number_scope.
Infix "/" := div : number_scope.
Infix "%%" := rem (at level 40, left associativity) : number_scope.
Notation "- a" := (neg a) : number_scope.
Infix "<?" := ltb : number_scope.
Infix ">?" := gtb : number_scope.
Infix "===" := strict_eqb (at level 70, no associativity) : number_scope.
Infix "≡" := same (at level 70, no associativity).
Bind Scope number_scope with number.

(** ** The modulo helper *)

(** [mod(n, m)]: [%] extended to negative dividends.  The remainder of two
    doubles is a double; the sum [q + m] is rounded. *)
Definition mod_ (n m : number) : number :=
  let q := (n %% m)%num in
  if (q <? zero)%num then add_double q m else q.

(** ** The axis table *)

(** ['x'], ['x-reverse'], ['y'] and ['y-reverse']. *)
Inductive Axis : Type := AxisX | AxisXReverse | AxisY | AxisYReverse.

(** A touch sample, [{ pageX, pageY }]. *)
Record Touch : Type := mkTouch { pageX : number; pageY : number }.

Module axisProperties.

Inductive lengthProperty : Type := width | height.

Definition length (axis : Axis) : lengthProperty :=
  match axis with
  | AxisX | AxisXReverse => width
  | AxisY | AxisYReverse => height
  end.

(** A matrix of the table: the row [x] and the row [y]. *)
Record Matrix : Type := mkMatrix { row_x : Z * Z; row_y : Z * Z }.

Definition rotationMatrix (axis : Axis) : Matrix :=
  match axis with
  | AxisX => mkMatrix (1, 0) (0, 1)
  | AxisXReverse => mkMatrix (-1, 0) (0, 1)
  | AxisY => mkMatrix (0, 1) (1, 0)
  | AxisYReverse => mkMatrix (0, -1) (1, 0)
  end%Z.

Section Transform.
(** [String(n)], the conversion a template literal applies to a number;
    it belongs to the language, not to the component. *)
Variable Number_toString : number -> string.

Definition transform (axis : Axis) (translate : number) : string :=
  match axis with
  | AxisX => "translate(" ++ Number_toString (- translate)%num ++ "%, 0)"
  | AxisXReverse => "translate(" ++ Number_toString translate ++ "%, 0)"
  | AxisY => "translate(0, " ++ Number_toString (- translate)%num ++ "%)"
  | AxisYReverse => "translate(0, " ++ Number_toString translate ++ "%)"
  end%string.
End Transform.


(** The other tables of [axisProperties]. *)

Inductive overflowProperty : Type := overflowX | overflowY.

(** [root]: the overflow property that is set to ['hidden']. *)
Definition root (axis : Axis) : overflowProperty :=
  match axis with
  | AxisX | AxisXReverse => overflowX
  | AxisY | AxisYReverse => overflowY
  end.

Inductive flexDirectionValue : Type :=
  row | row_reverse | column | column_reverse.

Definition flexDirection (axis : Axis) : flexDirectionValue :=
  match axis with
  | AxisX => row
  | AxisXReverse => row_reverse
  | AxisY => column
  | AxisYReverse => column_reverse
  end.

Inductive scrollPositionProperty : Type := scrollLeft | scrollTop.

Definition scrollPosition (axis : Axis) : scrollPositionProperty :=
  match axis with
  | AxisX | AxisXReverse => scrollLeft
  | AxisY | AxisYReverse => scrollTop
  end.

Inductive scrollLengthProperty : Type := scrollWidth | scrollHeight.

Definition scrollLength (axis : Axis) : scrollLengthProperty :=
  match axis with
  | AxisX | AxisXReverse => scrollWidth
  | AxisY | AxisYReverse => scrollHeight
  end.

Inductive clientLengthProperty : Type := clientWidth | clientHeight.

Definition clientLength (axis : Axis) : clientLengthProperty :=
  match axis with
  | AxisX | AxisXReverse => clientWidth
  | AxisY | AxisYReverse => clientHeight
  end.

End axisProperties.

(** ** The rotation of a sample *)

(** [m.x[0] * pageX + m.x[1] * pageY] and the same with the row [y]. *)
Definition applyMatrix (m : axisProperties.Matrix) (touch : Touch) : Touch :=
  let rx := axisProperties.row_x m in
  let ry := axisProperties.row_y m in
  {| pageX := ofZ (fst rx) * pageX touch + ofZ (snd rx) * pageY touch;
     pageY := ofZ (fst ry) * pageX touch + ofZ (snd ry) * pageY touch |}%num.

Definition applyRotationMatrix (touch : Touch) (axis : Axis) : Touch :=
  applyMatrix (axisProperties.rotationMatrix axis) touch.

(** The transpose of a matrix and the product of two matrices: the code
    has neither, they state that a matrix of the table is orthogonal. *)
Definition transpose (m : axisProperties.Matrix) : axisProperties.Matrix :=
  let rx := axisProperties.row_x m in
  let ry := axisProperties.row_y m in
  axisProperties.mkMatrix (fst rx, fst ry) (snd rx, snd ry).

Definition matrix_mul (a b : axisProperties.Matrix) : axisProperties.Matrix :=
  let ax := axisProperties.row_x a in
  let ay := axisProperties.row_y a in
  let bx := axisProperties.row_x b in
  let by_ := axisProperties.row_y b in
  axisProperties.mkMatrix
    (fst ax * fst bx + snd ax * fst by_, fst ax * snd bx + snd ax * snd by_)%Z
    (fst ay * fst bx + snd ay * fst by_, fst ay * snd bx + snd ay * snd by_)%Z.

Definition identity_matrix : axisProperties.Matrix :=
  axisProperties.mkMatrix (1, 0)%Z (0, 1)%Z.

(** Two samples are the same when their coordinates are. *)
Definition same_touch (a b : Touch) : Prop :=
  pageX a ≡ pageX b /\ pageY a ≡ pageY b.

(** ** Strings: [split] and [parseInt] *)

Module JSString.

(** [s.split(sep)] for a separator of one character. *)
Fixpoint split (sep : ascii) (s : string) : list string :=
  match s with
  | EmptyString => [EmptyString]
  | String c rest =>
      if Ascii.eqb c sep then EmptyString :: split sep rest
      else
        match split sep rest with
        | [] => [String c EmptyString]
        | piece :: pieces => String c piece :: pieces
        end
  end.

Definition is_white_space (c : ascii) : bool :=
  let n := nat_of_ascii c in
  (n =? 32)%nat || ((9 <=? n)%nat && (n <=? 13)%nat).

Fixpoint trim_start (s : string) : string :=
  match s with
  | String c rest => if is_white_space c then trim_start rest else s
  | EmptyString => EmptyString
  end.

Definition digit (c : ascii) : option Z :=
  let n := nat_of_ascii c in
  if (48 <=? n)%nat && (n <=? 57)%nat then Some (Z.of_nat (n - 48)) else None.

(** The value of the longest prefix of decimal digits, if there is one. *)
Fixpoint leading_digits (s : string) (acc : option Z) : option Z :=
  match s with
  | EmptyString => acc
  | String c rest =>
      match digit c with
      | None => acc
      | Some d =>
          leading_digits rest
            (Some (10 * match acc with Some a => a | None => 0 end + d)%Z)
      end
  end.

(** [parseInt(s, 10)]: white space, an optional sign, then digits; [NaN]
    when no digit follows.  The integer read is rounded to a double. *)
Definition parseInt (s : string) : number :=
  let s := trim_start s in
  let '(sign, s) :=
    match s with
    | String "-" rest => ((-1)%Z, rest)
    | String "+" rest => (1%Z, rest)
    | _ => (1%Z, s)
    end in
  match leading_digits s None with
  | None => NaN
  | Some z => toDouble (inject_Z (sign * z))
  end.

(** [parseInt(a[i], 10)]: a missing element is [undefined], read as the
    text "undefined". *)
Definition parseInt_at (a : list string) (i : nat) : number :=
  match nth_error a i with
  | Some s => parseInt s
  | None => NaN
  end.

Definition is_empty (s : string) : bool :=
  match s with EmptyString => true | _ => false end.

(** [a || b] on strings: the empty string is falsy. *)
Definition or_else (a b : string) : string := if is_empty a then b else a.

End JSString.

(** ** Printing numbers *)

Module Printing.

Definition digit_char (d : Z) : ascii := ascii_of_nat (48 + Z.to_nat d).

(** The decimals of [r / den], at most [fuel] of them. *)
Fixpoint decimals (fuel : nat) (r den : Z) : string :=
  match fuel with
  | O => EmptyString
  | S fuel' =>
      if (r =? 0)%Z then EmptyString
      else String (digit_char ((10 * r) / den))
                  (decimals fuel' ((10 * r) mod den) den)
  end.

Definition decimal_of_Q (q : Q) : string :=
  let n := Z.abs (Qnum q) in
  let d := Zpos (Qden q) in
  ((if (Qnum q <? 0)%Z then "-" else "")
   ++ NilZero.string_of_int (Z.to_int (n / d))
   ++ (if (n mod d =? 0)%Z then "" else "." ++ decimals 20 (n mod d) d))%string.

(** A rendering of numbers for the examples: the decimal expansion, cut
    after twenty decimals, which is what [String] gives on the integers and
    the short decimals used there. *)
Definition Number_toString (a : number) : string :=
  match a with
  | Num q => decimal_of_Q q
  | Infinity => "Infinity"
  | NegInfinity => "-Infinity"
  | NaN => "NaN"
  end.

End Printing.

(** ** The state of an instance and of the module *)

(** The identity of a DOM node. *)
Definition Node : Type := nat.

(** A child of the component; only the number of children matters. *)
Definition ReactNode : Type := nat.

(** The refs of one instance.  [None] stands for [null] in the two node refs
    and in [indexCurrent], and for [undefined] in [viewLength] (what the
    optional chain on a missing root gives) and in [isSwiping]. *)
Record Refs : Type := mkRefs {
  indexCurrent : option number;
  containerNode : option Node;
  started : bool;
  rootNode : option Node;
  viewLength : option number;
  lastX : number;
  vx : number;
  startX : number;
  startY : number;
  isSwiping : option number;
  startIndex : number
}.

(** The refs of a freshly rendered instance. *)
Definition initialRefs : Refs :=
  {| indexCurrent := None; containerNode := None; started := false;
     rootNode := None; viewLength := Some zero; lastX := zero; vx := zero;
     startX := zero; startY := zero; isSwiping := None; startIndex := zero |}.

(** The props the handlers read; a callback prop is present or not. *)
Record Props : Type := mkProps {
  animateTransitions : bool;
  axis : Axis;
  children : list ReactNode;
  disabled : bool;
  ignoreNativeScroll : bool;
  index : number;
  onSwitching : bool;
  onTouchStart : bool;
  onTransitionEnd : bool;
  resistance : bool
}.

(** The values of [useState] a render closes over. *)
Record Hooks : Type := mkHooks {
  displaySameSlide : bool;
  isDragging : bool
}.

(** A touch event. *)
Record TouchEvent : Type := mkTouchEvent {
  touches : list Touch;
  target : Node
}.

(** What the handlers read from the document. *)
Record Dom : Type := mkDom {
  (** [node.getBoundingClientRect()[property]] *)
  getBoundingClientRect : Node -> axisProperties.lengthProperty -> number;
  (** [window.getComputedStyle(node)], by property name *)
  getComputedStyle : Node -> string -> string
}.

Inductive ConsoleArg : Type :=
| ArgBoolean (b : bool)
| ArgString (s : string).

(** What a handler does to the outside, in order. *)
Inductive Effect : Type :=
| PreventDefault
| ConsoleWarn (args : list ConsoleArg)
| SetWebkitTransform (node : Node) (value : string)
| SetTransform (node : Node) (value : string)
| CallOnTransitionEnd
| CallOnTouchStart
| CallOnSwitching (indexNew : number) (reason : string).

(** The state a handler runs in: the refs of its instance, the module-level
    [nodeWhoClaimedTheScroll] ([None] is [null]) and the effects so far. *)
Record World : Type := mkWorld {
  refs : Refs;
  nodeWhoClaimedTheScroll : option Node;
  trace : list Effect
}.

(** ** Control: normal completion, [return], [throw] *)

Inductive Error : Type :=
| TypeError (message : string)
| ReferenceError (message : string).

Inductive Completion (A : Type) : Type :=
| Normal (a : A)
| Return
| Throw (e : Error).
Arguments Normal {A} a.
Arguments Return {A}.
Arguments Throw {A} e.

Definition M (A : Type) : Type := World -> Completion A * World.

Definition ret {A} (a : A) : M A := fun w => (Normal a, w).

Definition bind {A B} (m : M A) (k : A -> M B) : M B :=
  fun w =>
    match m w with
    | (Normal a, w') => k a w'
    | (Return, w') => (Return, w')
    | (Throw e, w') => (Throw e, w')
    end.

Declare Scope js_scope.
Delimit Scope js_scope with js.
Notation "v <- m ;; k" := (bind m (fun v => k))
  (at level 100, m at next level, right associativity) : js_scope.
Notation "m ;; k" := (bind m (fun _ => k))
  (at level 100, right associativity) : js_scope.
Open Scope js_scope.

(** [return;] *)
Definition return_ {A} : M A := fun w => (Return, w).

Definition throw {A} (e : Error) : M A := fun w => (Throw e, w).

(** A call of a function without a result: its [return] ends the call. *)
Definition call (body : M unit) : M unit :=
  fun w =>
    match body w with
    | (Return, w') => (Normal tt, w')
    | r => r
    end.

(** [if (c) { body }] *)
Definition when_ (c : bool) (body : M unit) : M unit :=
  if c then body else ret tt.

Definition getRefs : M Refs := fun w => (Normal (refs w), w).

Definition modifyRefs (f : Refs -> Refs) : M unit :=
  fun w => (Normal tt, mkWorld (f (refs w)) (nodeWhoClaimedTheScroll w) (trace w)).

Definition getClaim : M (option Node) :=
  fun w => (Normal (nodeWhoClaimedTheScroll w), w).

Definition setClaim (n : option Node) : M unit :=
  fun w => (Normal tt, mkWorld (refs w) n (trace w)).

Definition emit (e : Effect) : M unit :=
  fun w => (Normal tt, mkWorld (refs w) (nodeWhoClaimedTheScroll w) (trace w ++ [e])).

(** Reading a property of [null] or [undefined]. *)
Definition nonNull {A} (o : option A) (what : string) : M A :=
  match o with
  | Some a => ret a
  | None => throw (TypeError what)
  end.

(** The component and its handlers are arrow functions, which have no [this]
    of their own, in a module, where [this] is [undefined]: reading,
    writing or calling a property of [this] throws. *)
Definition this_get {A} (property : string) : M A :=
  throw (TypeError ("Cannot read properties of undefined: " ++ property)).

Definition this_set {A} (property : string) (value : A) : M unit :=
  throw (TypeError ("Cannot set properties of undefined: " ++ property)).

Definition this_call {A B} (method : string) (argument : A) : M B :=
  throw (TypeError ("Cannot read properties of undefined: " ++ method)).

(** A [const] of the function body read above its declaration: the name is
    in scope and not initialized yet, reading it throws. *)
Definition uninitialized {A} (name : string) : M A :=
  throw (ReferenceError ("Cannot access before initialization: " ++ name)).

(** The ref object [isSwiping] itself, as opposed to its [current]. *)
Inductive RefObject : Type := isSwiping_ref.

(** Assignments to the refs. *)
Definition set_indexCurrent (v : option number) (r : Refs) : Refs :=
  mkRefs v (containerNode r) (started r) (rootNode r) (viewLength r) (lastX r)
    (vx r) (startX r) (startY r) (isSwiping r) (startIndex r).
Definition set_started (v : bool) (r : Refs) : Refs :=
  mkRefs (indexCurrent r) (containerNode r) v (rootNode r) (viewLength r)
    (lastX r) (vx r) (startX r) (startY r) (isSwiping r) (startIndex r).
Definition set_viewLength (v : option number) (r : Refs) : Refs :=
  mkRefs (indexCurrent r) (containerNode r) (started r) (rootNode r) v
    (lastX r) (vx r) (startX r) (startY r) (isSwiping r) (startIndex r).
Definition set_lastX (v : number) (r : Refs) : Refs :=
  mkRefs (indexCurrent r) (containerNode r) (started r) (rootNode r)
    (viewLength r) v (vx r) (startX r) (startY r) (isSwiping r) (startIndex r).
Definition set_vx (v : number) (r : Refs) : Refs :=
  mkRefs (indexCurrent r) (containerNode r) (started r) (rootNode r)
    (viewLength r) (lastX r) v (startX r) (startY r) (isSwiping r)
    (startIndex r).
Definition set_startX (v : number) (r : Refs) : Refs :=
  mkRefs (indexCurrent r) (containerNode r) (started r) (rootNode r)
    (viewLength r) (lastX r) (vx r) v (startY r) (isSwiping r) (startIndex r).
Definition set_startY (v : number) (r : Refs) : Refs :=
  mkRefs (indexCurrent r) (containerNode r) (started r) (rootNode r)
    (viewLength r) (lastX r) (vx r) (startX r) v (isSwiping r) (startIndex r).
Definition set_isSwiping (v : option number) (r : Refs) : Refs :=
  mkRefs (indexCurrent r) (containerNode r) (started r) (rootNode r)
    (viewLength r) (lastX r) (vx r) (startX r) (startY r) v (startIndex r).
Definition set_startIndex (v : number) (r : Refs) : Refs :=
  mkRefs (indexCurrent r) (containerNode r) (started r) (rootNode r)
    (viewLength r) (lastX r) (vx r) (startX r) (startY r) (isSwiping r) v.

(** [ToNumber] of a number or [undefined]. *)
Definition toNumber (v : option number) : number :=
  match v with Some n => n | None => NaN end.

(** [Boolean] of a number or [undefined]. *)
Definition toBoolean (v : option number) : bool :=
  match v with Some n => truthy n | None => false end.

(** [React.Children.count(children)] *)
Definition Children_count (children : list ReactNode) : number :=
  ofZ (Z.of_nat (List.length children)).

(** ** The component *)

Section SwipeableComponent.

(** Names the file uses without defining or importing them. *)
Variable UNCERTAINTY_THRESHOLD : number.   (* [constant.UNCERTAINTY_THRESHOLD] *)
Variable DomTreeShapes : Type.
(** [computeIndex] gives the index and, at an edge, a new [startX]. *)
Variable computeIndex :
  list ReactNode -> bool -> number -> number -> number -> option number ->
  number * option number.
Variable getDomTreeShapes : Node -> option Node -> DomTreeShapes.
Variable findNativeHandler : DomTreeShapes -> number -> number -> Axis -> bool.

Variable Number_toString : number -> string.

(** The document, the props and the hook values of the render. *)
Variable dom : Dom.
Variable props : Props.
Variable hooks : Hooks.

Definition handleTransitionEnd : M unit :=
  when_ (negb (onTransitionEnd props)) return_ ;;
  (* Filters out when changing the children *)
  when_ (displaySameSlide hooks) return_ ;;
  (* The rest callback is triggered when swiping. *)
  when_ (negb (isDragging hooks)) (emit CallOnTransitionEnd).

(** [applyRotationMatrix(event.touches[0], axis)] *)
Definition firstTouch (event : TouchEvent) : M Touch :=
  touch <- nonNull (nth_error (touches event) 0) "pageX" ;;
  ret (applyRotationMatrix touch (axis props)).

(** [const transform]: the computed transform of the container. *)
Definition computedTransform (container : Node) : string :=
  JSString.or_else (getComputedStyle dom container "-webkit-transform")
                   (getComputedStyle dom container "transform").

(** [transform && transform !== 'none'] *)
Definition hasTransform (transform : string) : bool :=
  negb (JSString.is_empty transform) && negb (String.eqb transform "none").

(** [const transformValues], from the text after the first parenthesis. *)
Definition transformValuesOf (inner : string) : list string :=
  JSString.split "," (hd EmptyString (JSString.split ")" inner)).

Definition tranformNormalized (transformValues : list string) : Touch :=
  applyRotationMatrix
    {| pageX := JSString.parseInt_at transformValues 4;
       pageY := JSString.parseInt_at transformValues 5 |}
    (axis props).

(** The width left once the paddings of the root are taken off. *)
Definition innerLength (viewLength : option number) (root : Node) : number :=
  (toNumber viewLength
   - JSString.parseInt (getComputedStyle dom root "paddingLeft")
   - JSString.parseInt (getComputedStyle dom root "paddingRight"))%num.

Definition handleSwipeStart (event : TouchEvent) : M unit :=
  touch <- firstTouch event ;;
  r <- getRefs ;;
  modifyRefs (set_viewLength
    (option_map
       (fun root => getBoundingClientRect dom root (axisProperties.length (axis props)))
       (rootNode r))) ;;
  modifyRefs (set_startX (pageX touch)) ;;
  modifyRefs (set_lastX (pageX touch)) ;;
  modifyRefs (set_vx zero) ;;
  modifyRefs (set_startY (pageY touch)) ;;
  modifyRefs (set_isSwiping None) ;;
  modifyRefs (set_started true) ;;
  container <- nonNull (containerNode r) "getComputedStyle" ;;
  let transform := computedTransform container in
  when_ (hasTransform transform) (
    inner <- nonNull (nth_error (JSString.split "(" transform) 1) "split" ;;
    let transformValues := transformValuesOf inner in
    root <- nonNull (rootNode r) "getComputedStyle" ;;
    r' <- getRefs ;;
    modifyRefs (set_startIndex
      (or_else
         (- pageX (tranformNormalized transformValues)
            / innerLength (viewLength r') root)%num
         zero))).

Definition handleTouchStart (event : TouchEvent) : M unit :=
  when_ (onTouchStart props) (emit CallOnTouchStart) ;;
  call (handleSwipeStart event).

Definition is_vertical (a : Axis) : bool :=
  match a with AxisY | AxisYReverse => true | _ => false end.

(** [slot !== null && slot !== rootNode.current] *)
Definition claimed_by_other (slot root : option Node) : bool :=
  match slot with
  | None => false
  | Some holder =>
      match root with
      | Some node => negb (Nat.eqb holder node)
      | None => true
      end
  end.

(** The test of the vertical axes at an edge, lines 292-297; [&&] and [||]
    evaluate their right side only when they need it. *)
Definition atEdgeMovingOut (touch : Touch) : M bool :=
  if negb (resistance props) && is_vertical (axis props) then
    indexCurrent0 <- this_get "indexCurrent" ;;
    first <-
      (if (indexCurrent0 === zero)%num then
         startX0 <- this_get "startX" ;;
         ret (startX0 <? pageX touch)%num
       else ret false) ;;
    if (first : bool) then ret true
    else
      indexCurrent1 <- this_get "indexCurrent" ;;
      thisProps <- this_get "props" ;;
      if (indexCurrent1 === Children_count (children thisProps) - ofZ 1)%num then
        startX1 <- this_get "startX" ;;
        ret (startX1 >? pageX touch)%num
      else ret false
  else ret false.

Definition handleSwipeMove (event : TouchEvent) : M unit :=
  (* The touch start event can be cancel. *)
  r0 <- getRefs ;;
  when_ (negb (started r0)) (call (handleTouchStart event) ;; return_) ;;
  (* We are not supposed to hanlde this touch move. *)
  slot <- getClaim ;;
  when_ (claimed_by_other slot (rootNode r0)) return_ ;;
  touch <- firstTouch event ;;
  (* We don't know yet. *)
  r1 <- getRefs ;;
  when_ (match isSwiping r1 with None => true | Some _ => false end) (
    (* In this function [startX] is the constant that line 326 declares,
       [const { index, startX } = computeIndex(...)], not the ref: it is
       read here before its declaration. *)
    startX_current <- uninitialized "startX" ;;
    let dx := abs (pageX touch - startX_current)%num in
    let dy := abs (pageY touch - startY r1)%num in
    let _isSwiping := (dx >? dy)%num && (dx >? UNCERTAINTY_THRESHOLD)%num in
    (* We let the parent handle the scroll. *)
    edge <- atEdgeMovingOut touch ;;
    when_ edge (this_set "isSwiping" false ;; return_) ;;
    (* We are likely to be swiping, let's prevent the scroll event. *)
    when_ (dx >? dy)%num (emit PreventDefault) ;;
    (* [isSwiping === true] compares the ref object with [true]: the
       name [isSwiping] is the ref, the local is [_isSwiping]. *)
    let isSwiping_is_true := false in
    when_ (isSwiping_is_true || (dy >? UNCERTAINTY_THRESHOLD)%num) (
      this_set "isSwiping" isSwiping_ref ;;
      this_set "startX" (pageX touch) ;;
      return_)) ;;
  r2 <- getRefs ;;
  when_ (negb (toBoolean (isSwiping r2))) return_ ;;
  (* We are swiping, let's prevent the scroll event. *)
  emit PreventDefault ;;
  (* Low Pass filter. *)
  vx0 <- this_get "vx" ;;
  lastX0 <- this_get "lastX" ;;
  this_set "vx" (vx0 * Num 0.5 + (pageX touch - lastX0) * Num 0.5)%num ;;
  this_set "lastX" (pageX touch) ;;
  startIndex0 <- this_get "startIndex" ;;
  startX0 <- this_get "startX" ;;
  viewLength0 <- this_get "viewLength" ;;
  let '(index, startX1) :=
    computeIndex (children props) (resistance props) (pageX touch)
                 startIndex0 startX0 viewLength0 in
  (* Add support for native scroll elements. *)
  slot1 <- getClaim ;;
  when_ (match slot1 with None => true | Some _ => false end
         && negb (ignoreNativeScroll props)) (
    thisRootNode <- this_get "rootNode" ;;
    let domTreeShapes := getDomTreeShapes (target event) thisRootNode in
    startX2 <- this_get "startX" ;;
    let hasFoundNativeHandler :=
      findNativeHandler domTreeShapes startX2 (pageX touch) (axis props) in
    (* We abort the touch move handler. *)
    when_ hasFoundNativeHandler return_) ;;
  (* We are moving toward the edges. *)
  slot2 <- getClaim ;;
  (if toBoolean startX1 then this_set "startX" startX1
   else
     when_ (match slot2 with None => true | Some _ => false end) (
       thisRootNode <- this_get "rootNode" ;;
       setClaim thisRootNode)) ;;
  this_call (B := unit) "setIndexCurrent" index ;;
  let callback := when_ (onSwitching props) (emit (CallOnSwitching index "move")) in
  thisState <- this_get "state" ;;
  needsUpdate <-
    (if displaySameSlide thisState then ret true
     else thisState' <- this_get "state" ;; ret (negb (isDragging thisState'))) ;;
  when_ needsUpdate (this_call (B := unit) "setState" callback) ;;
  callback.

Definition setIndexCurrent (_indexCurrent : number) : M unit :=
  r <- getRefs ;;
  when_ (negb (animateTransitions props)
         && negb (match indexCurrent r with
                  | Some current => (current === _indexCurrent)%num
                  | None => false
                  end))
    (call handleTransitionEnd) ;;
  modifyRefs (set_indexCurrent (Some _indexCurrent)) ;;
  match containerNode r with
  | Some container =>
      let transform :=
        axisProperties.transform Number_toString (axis props)
          (_indexCurrent * ofZ 100)%num in
      emit (SetWebkitTransform container transform) ;;
      emit (SetTransform container transform)
  | None => ret tt
  end.

Definition checkIndexBounds (index : number) (children : list ReactNode) : M unit :=
  let childrenCount := Children_count children in
  emit (ConsoleWarn
    [ ArgBoolean (geb index zero && leb index childrenCount);
      ArgString ("react-swipeable-view: the new index: " ++ Number_toString index
                 ++ " is out of bounds: [0-" ++ Number_toString childrenCount
                 ++ "].") ]).

(** The callback given to [useMount]; [NODE_ENV] is [process.env.NODE_ENV]. *)
Definition useMount (NODE_ENV : string) : M unit :=
  when_ (negb (String.eqb NODE_ENV "production"))
    (call (checkIndexBounds (index props) (children props))) ;;
  call (setIndexCurrent (index props)).

(** The listener of [touchmove] installed by the effect. *)
Definition touchMoveListener (event : TouchEvent) : M unit :=
  (* Handling touch events is disabled. *)
  when_ (disabled props) return_ ;;
  call (handleSwipeMove event).

End SwipeableComponent.

(** ** Several instances under one event *)

(** An instance: its props, the hook values of its render and its refs. *)
Record Instance : Type := mkInstance {
  instProps : Props;
  instHooks : Hooks;
  instRefs : Refs
}.

Section Dispatch.

Variable UNCERTAINTY_THRESHOLD : number.
Variable DomTreeShapes : Type.
Variable computeIndex :
  list ReactNode -> bool -> number -> number -> number -> option number ->
  number * option number.
Variable getDomTreeShapes : Node -> option Node -> DomTreeShapes.
Variable findNativeHandler : DomTreeShapes -> number -> number -> Axis -> bool.
Variable dom : Dom.

(** One listener runs: it sees the refs of its instance and the shared
    claim; what it threw is reported and lost, what it wrote stays. *)
Definition deliver (event : TouchEvent) (inst : Instance)
           (claim : option Node) (effects : list Effect)
  : Instance * option Node * list Effect :=
  let '(_, w) :=
    touchMoveListener UNCERTAINTY_THRESHOLD DomTreeShapes computeIndex getDomTreeShapes
      findNativeHandler dom (instProps inst) event
      (mkWorld (instRefs inst) claim effects) in
  (mkInstance (instProps inst) (instHooks inst) (refs w),
   nodeWhoClaimedTheScroll w, trace w).

(** A [touchmove] reaches the listeners of the instances on its path, one
    after the other. *)
Fixpoint dispatchMove (event : TouchEvent) (instances : list Instance)
         (claim : option Node) (effects : list Effect)
  : list Instance * option Node * list Effect :=
  match instances with
  | [] => ([], claim, effects)
  | inst :: rest =>
      let '(inst', claim', effects') := deliver event inst claim effects in
      let '(rest', claim'', effects'') := dispatchMove event rest claim' effects' in
      (inst' :: rest', claim'', effects'')
  end.

End Dispatch.

(** ** Release *)

Module Release.

(** Modelled from the spec: the release handler (touch end or cancel) is not
    in the source file, which only declares [hysteresis] and [threshold] and
    forwards [onTouchEnd].  What section 4.3, Release, resolves a release
    from. *)
Record Gesture : Type := mkGesture {
  indexContinuous : Q;    (* the continuous index at release *)
  indexStart : Z;         (* the integer index the drag started from *)
  forward : bool;         (* the drag moves toward higher indexes *)
  velocity : Q;           (* the filtered velocity, in page coordinates *)
  hysteresis : Q;
  flickThreshold : Q
}.

(** Modelled from the spec: the release handler is missing; [indexDecimal] is
    the fractional part of the continuous index relative to the nearest
    lower integer. *)
Definition indexDecimal (g : Gesture) : Q :=
  indexContinuous g - inject_Z (Qfloor (indexContinuous g)).

(** Modelled from the spec: the release handler is missing; [delta] is
    [indexDecimal] if moving forward, else [1 - indexDecimal]. *)
Definition delta (g : Gesture) : Q :=
  if forward g then indexDecimal g else 1 - indexDecimal g.

(** Modelled from the spec: the release handler is missing; the sign of the
    velocity agrees with the drag direction.  The velocity filters
    [pageX - lastX] and the index grows as [startX - pageX], so a forward
    drag has a negative velocity. *)
Definition velocityAgrees (g : Gesture) : bool :=
  if forward g then Qltb (velocity g) 0 else Qltb 0 (velocity g).

(** Modelled from the spec: the release handler is missing; commit when
    (a) [delta > hysteresis] or (b) the velocity magnitude exceeds the flick
    threshold and its sign agrees with the drag direction. *)
Definition commits (g : Gesture) : bool :=
  Qltb (hysteresis g) (delta g)
  || (Qltb (flickThreshold g) (Qabs (velocity g)) && velocityAgrees g).

(** Modelled from the spec: the release handler is missing; the next integer
    index, one step from the starting index in the direction of the drag. *)
Definition indexNext (g : Gesture) : Z :=
  if forward g then (indexStart g + 1)%Z else (indexStart g - 1)%Z.

(** Modelled from the spec: the release handler is missing; commit to the
    next integer index, otherwise snap back to the starting integer
    index. *)
Definition settledIndex (g : Gesture) : Z :=
  if commits g then indexNext g else indexStart g.

End Release.

(** ** Values for the examples *)

Module Example.

(** Values for the names the file leaves undefined, which the handlers take
    as parameters: the threshold is 3 pixels, the index is the candidate
    [startIndex + (startX - pageX) / viewLength] without an adjusted start,
    and no native handler is ever found. *)
Definition UNCERTAINTY_THRESHOLD : number := ofZ 3.
Definition computeIndex (children : list ReactNode) (resistance : bool)
           (pageX startIndex startX : number) (viewLength : option number)
  : number * option number :=
  ((startIndex + (startX - pageX) / toNumber viewLength)%num, None).
Definition getDomTreeShapes (target : Node) (root : option Node) : unit := tt.
Definition findNativeHandler (shapes : unit) (startX pageX : number)
           (axis : Axis) : bool := false.

(** The default props, with three children. *)
Definition props : Props :=
  {| animateTransitions := true; axis := AxisX; children := [1; 2; 3]%nat;
     disabled := false; ignoreNativeScroll := false; index := zero;
     onSwitching := true; onTouchStart := false; onTransitionEnd := false;
     resistance := false |}.

Definition propsOnAxis (a : Axis) : Props :=
  mkProps (animateTransitions props) a (children props) (disabled props)
    (ignoreNativeScroll props) (index props) (onSwitching props)
    (onTouchStart props) (onTransitionEnd props) (resistance props).

Definition hooks : Hooks := {| displaySameSlide := true; isDragging := false |}.

(** The root is node 1 and the container node 2; the container is 300
    wide and shows the first slide without a transform. *)
Definition root : Node := 1%nat.
Definition container : Node := 2%nat.

Definition dom : Dom :=
  {| getBoundingClientRect := fun _ _ => ofZ 300;
     getComputedStyle := fun _ property =>
       (if String.eqb property "transform" then "none"
        else if String.eqb property "-webkit-transform" then "none"
        else "0px")%string |}.

(** A gesture that started at (100, 100) on the first slide and is not
    decided yet. *)
Definition startedRefs : Refs :=
  {| indexCurrent := Some zero; containerNode := Some container;
     started := true; rootNode := Some root; viewLength := Some (ofZ 300);
     lastX := ofZ 100; vx := zero; startX := ofZ 100; startY := ofZ 100;
     isSwiping := None; startIndex := zero |}.

(** The same gesture before its start was recorded. *)
Definition idleRefs : Refs := set_started false startedRefs.

(** The same gesture once it is a swipe. *)
Definition swipingRefs : Refs := set_isSwiping (Some (ofZ 1)) startedRefs.

Definition moveTo (px py : Z) : TouchEvent :=
  {| touches := [mkTouch (ofZ px) (ofZ py)]; target := container |}.

(** The move handler of an instance with props [p]. *)
Definition move (p : Props) : TouchEvent -> M unit :=
  handleSwipeMove UNCERTAINTY_THRESHOLD unit computeIndex getDomTreeShapes
    findNativeHandler dom p.

(** A document whose container is caught in the middle of a transition,
    300 pixels to the left, under a root of the given length. *)
Definition movingDom (length : number) : Dom :=
  {| getBoundingClientRect := fun _ _ => length;
     getComputedStyle := fun _ property =>
       (if String.eqb property "transform" then "matrix(1, 0, 0, 1, -300, 0)"
        else if String.eqb property "-webkit-transform" then ""
        else "0px")%string |}.

End Example.

(** ** Listeners and the effect that installs them *)

Module Listeners.

(** The options of a registration, [undefined] ([None]) or an object;
    only [capture] identifies a registration. *)
Record Options : Type := mkOptions { capture : bool; passive : bool }.

Definition captureOf (options : option Options) : bool :=
  match options with
  | Some o => capture o
  | None => false
  end.

(** A registration on a node: the event, the identity of the function and
    the capture flag. *)
Record Listener : Type := mkListener {
  onNode : Node;
  eventType : string;
  callback : nat;
  useCapture : bool
}.

Definition sameListener (a b : Listener) : bool :=
  Nat.eqb (onNode a) (onNode b) && String.eqb (eventType a) (eventType b)
  && Nat.eqb (callback a) (callback b) && Bool.eqb (useCapture a) (useCapture b).

(** The registrations of the document, in the order they were made. *)
Definition Registry : Type := list Listener.

(** [node.addEventListener(event, handler, options)]: a registration that
    is already there is not made again. *)
Definition dom_addEventListener (l : Listener) (g : Registry) : Registry :=
  if existsb (sameListener l) g then g else g ++ [l].

(** [node.removeEventListener(event, handler, options)] *)
Definition dom_removeEventListener (l : Listener) (g : Registry) : Registry :=
  filter (fun k => negb (sameListener l k)) g.

(** What the first argument of the helper can be: a node, or a ref object
    [{ current }], which has no method. *)
Inductive Target : Type :=
| ANode (node : Node)
| ARef (current : option Node).

(** [ListenerReturnType]: an object with the method [remove]. *)
Record ListenerReturnType : Type := mkReturn {
  remove : Registry -> Completion unit * Registry
}.

(** The helper [addEventListener(node, event, handler, options)]. *)
Definition addEventListener (node : Target) (event : string) (handler : nat)
           (options : option Options) (g : Registry)
  : Completion ListenerReturnType * Registry :=
  match node with
  | ANode n =>
      let l := mkListener n event handler (captureOf options) in
      (Normal (mkReturn (fun g' => (Normal tt, dom_removeEventListener l g'))),
       dom_addEventListener l g)
  | ARef _ => (Throw (TypeError "node.addEventListener is not a function"), g)
  end.

(** The state the effect works on: the registrations, the two refs that
    keep the handles and the timers that were set. *)
Record EffectState : Type := mkEffectState {
  registry : Registry;
  transitionListener : option ListenerReturnType;
  touchMoveListenerRef : option ListenerReturnType;
  timers : list nat
}.

Definition E (A : Type) : Type := EffectState -> Completion A * EffectState.

Definition bindE {A B} (m : E A) (k : A -> E B) : E B :=
  fun s =>
    match m s with
    | (Normal a, s') => k a s'
    | (Return, s') => (Return, s')
    | (Throw e, s') => (Throw e, s')
    end.

Definition retE {A} (a : A) : E A := fun s => (Normal a, s).

(** A property of [this], which is [undefined] here as in the handlers. *)
Definition thisE {A} (property : string) : E A :=
  fun s => (Throw (TypeError ("Cannot read properties of undefined: " ++ property)), s).

(** The helper, run on the registrations of the state. *)
Definition register (node : Target) (event : string) (handler : nat)
           (options : option Options) : E ListenerReturnType :=
  fun s =>
    let '(c, g) := addEventListener node event handler options (registry s) in
    (c, mkEffectState g (transitionListener s) (touchMoveListenerRef s) (timers s)).

Definition setTransitionListener (h : ListenerReturnType) : E unit :=
  fun s => (Normal tt,
            mkEffectState (registry s) (Some h) (touchMoveListenerRef s) (timers s)).

Definition setTouchMoveListener (h : ListenerReturnType) : E unit :=
  fun s => (Normal tt,
            mkEffectState (registry s) (transitionListener s) (Some h) (timers s)).

Definition setTimeout (task : nat) : E nat :=
  fun s => (Normal (List.length (timers s)),
            mkEffectState (registry s) (transitionListener s)
              (touchMoveListenerRef s) (timers s ++ [task])).

(** What [this.props] holds in a class component: the two props the effect
    reads, [action] being supplied or not. *)
Record ClassProps : Type := mkClassProps {
  disableLazyLoading : bool;
  action : bool
}.

(** The callback of [useEffect], lines 403-443.  [containerNode] and
    [rootNode] are the ref objects, as the code passes them; the two
    functions and the task of the timer are named by numbers. *)
Definition mountEffect (refs : Refs) : E unit :=
  let transitionEndHandler := 1%nat in
  let touchMoveHandler := 2%nat in
  let firstRenderTask := 3%nat in
  (* Subscribe to transition end events. *)
  bindE (register (ARef (containerNode refs)) "transitionend"
           transitionEndHandler None) (fun h1 =>
  bindE (setTransitionListener h1) (fun _ =>
  (* Block the thread to handle that event. *)
  bindE (register (ARef (rootNode refs)) "touchmove" touchMoveHandler
           (Some (mkOptions false false))) (fun h2 =>
  bindE (setTouchMoveListener h2) (fun _ =>
  bindE (thisE "props") (fun thisProps : ClassProps =>
  bindE (if negb (disableLazyLoading thisProps)
         then bindE (setTimeout firstRenderTask) (fun timer : nat =>
              thisE "firstRenderTimeout")
         else retE tt) (fun _ : unit =>
  (* Send all functions in an object if action param is set. *)
  bindE (thisE "props") (fun thisProps' : ClassProps =>
  if action thisProps'
  then bindE (thisE "updateHeight") (fun updateHeight : unit =>
       thisE "props.action")
  else retE tt))))))).

End Listeners.

(** ** The text of a computed transform *)

Module TransformText.

Definition digitChar (d : nat) : ascii := ascii_of_nat (48 + d).

(** The text of a list of decimal digits, and its value. *)
Definition digitsText (ds : list nat) : string :=
  fold_right (fun d s => String (digitChar d) s) EmptyString ds.

Definition digitsValue (ds : list nat) : Z :=
  fold_left (fun acc d => (10 * acc + Z.of_nat d)%Z) ds 0%Z.

(** An integer as a document serializes it: a minus sign if it is negative,
    then its digits. *)
Definition integerText (negative : bool) (ds : list nat) : string :=
  if negative then String "-" (digitsText ds) else digitsText ds.

Definition integerValue (negative : bool) (ds : list nat) : Z :=
  if negative then (- digitsValue ds)%Z else digitsValue ds.

(** The computed transform of a translated element: the matrix of the
    translation by [tx] and [ty]. *)
Definition matrixText (tx ty : string) : string :=
  ("matrix(1, 0, 0, 1, " ++ tx ++ ", " ++ ty ++ ")")%string.

(** The characters of [s] all differ from [c]. *)
Fixpoint free (c : ascii) (s : string) : bool :=
  match s with
  | EmptyString => true
  | String k rest => negb (Ascii.eqb k c) && free c rest
  end.

End TransformText.

(** ** Directions *)

(** The axis with the other direction, and the direction of a value of
    [flex-direction]. *)
Definition reverseAxis (a : Axis) : Axis :=
  match a with
  | AxisX => AxisXReverse
  | AxisXReverse => AxisX
  | AxisY => AxisYReverse
  | AxisYReverse => AxisY
  end.

Definition reverseFlex (d : axisProperties.flexDirectionValue)
  : axisProperties.flexDirectionValue :=
  match d with
  | axisProperties.row => axisProperties.row_reverse
  | axisProperties.row_reverse => axisProperties.row
  | axisProperties.column => axisProperties.column_reverse
  | axisProperties.column_reverse => axisProperties.column
  end.


Definition touch_neg (a : Touch) : Touch :=
  {| pageX := - pageX a; pageY := - pageY a |}%num.

(** * Properties *)


(** ** Rounding to a double *)

Lemma Qred_integer (z : Z) : Qred (inject_Z z) = inject_Z z.
Proof.
  unfold Qred, inject_Z.
  pose proof (Z.ggcd_gcd z 1) as Hg.
  pose proof (Z.ggcd_correct_divisors z 1) as Hd.
  destruct (Z.ggcd z 1) as [g [a b]]. cbn [fst snd] in *.
  rewrite Z.gcd_1_r in Hg. subst g. destruct Hd as [Ha Hb].
  replace a with z by lia. replace b with 1%Z by lia. reflexivity.
Qed.

(** An integer below [2^53] in magnitude is a double. *)
Lemma nearest_integer (z : Z) :
  (Z.abs z < 2 ^ 53)%Z -> nearest (inject_Z z) == inject_Z z.
Proof.
  intros Hz. unfold nearest, Qis_zero. cbn [inject_Z Qnum].
  destruct (Z.eqb_spec z 0) as [-> | Hnz]; [reflexivity|].
  set (e := Z.max (Qlog2 (inject_Z z) - 52) (-1074)).
  assert (He : (e <= 0)%Z).
  { unfold e, Qlog2, inject_Z. cbn [Qnum Qden].
    change (Z.log2 (Z.pos 1)) with 0%Z.
    assert (Z.log2 (Z.abs z) < 53)%Z by (apply Z.log2_lt_pow2; lia).
    destruct (Qle_bool _ _); lia. }
  assert (Hup : pow2 (- e) = inject_Z (2 ^ (- e))).
  { unfold pow2. destruct (Z.leb_spec 0 (- e)); [reflexivity | lia]. }
  assert (Hone : pow2 (- e) * pow2 e == 1).
  { rewrite Hup. unfold pow2. destruct (Z.leb_spec 0 e).
    - replace e with 0%Z by lia. reflexivity.
    - field. change 0 with (inject_Z 0). rewrite inject_Z_injective.
      pose proof (Z.pow_pos_nonneg 2 (- e) ltac:(lia) ltac:(lia)). lia. }
  assert (Hx : Qabs (inject_Z z) * pow2 (- e) == inject_Z (Z.abs z * 2 ^ (- e))).
  { rewrite Hup, inject_Z_mult. reflexivity. }
  assert (Hh : halfEven (Qabs (inject_Z z) * pow2 (- e)) = (Z.abs z * 2 ^ (- e))%Z).
  { unfold halfEven. cbv zeta. rewrite (Qfloor_comp _ _ Hx), Qfloor_Z.
    assert (Hlt : Qabs (inject_Z z) * pow2 (- e) - inject_Z (Z.abs z * 2 ^ (- e)) < 1 # 2).
    { rewrite Hx. unfold Qminus. rewrite Qplus_opp_r. reflexivity. }
    apply Qlt_alt in Hlt. unfold Qcompare in *. rewrite Hlt. reflexivity. }
  rewrite Hh. unfold Qsign. cbn [Qnum inject_Z].
  replace (Z.sgn z * (Z.abs z * 2 ^ (- e)))%Z with (z * 2 ^ (- e))%Z
    by (rewrite Z.mul_assoc, (Z.mul_comm (Z.sgn z)), Z.abs_sgn; reflexivity).
  rewrite inject_Z_mult, <- Hup, <- Qmult_assoc, Hone. ring.
Qed.

(** A rational equal to an integer below [2^53] in magnitude is kept. *)
Lemma toDouble_integer (x : Q) (z : Z) :
  x == inject_Z z -> (Z.abs z < 2 ^ 53)%Z -> toDouble x = Num x.
Proof.
  intros Hx Hz. unfold toDouble.
  rewrite (Qred_complete _ _ Hx), Qred_integer.
  pose proof (nearest_integer z Hz) as Hr.
  assert (Hbig : Qle_bool (pow2 1024) (Qabs (nearest (inject_Z z))) = false).
  { destruct (Qle_bool _ _) eqn:E; [|reflexivity].
    apply Qle_bool_iff in E. rewrite Hr in E.
    unfold pow2 in E. change (0 <=? 1024)%Z with true in E. cbv iota in E.
    change (Qabs (inject_Z z)) with (inject_Z (Z.abs z)) in E.
    rewrite <- Zle_Qle in E.
    assert (2 ^ 53 < 2 ^ 1024)%Z by (apply Z.pow_lt_mono_r; lia).
    remember (2 ^ 1024)%Z as P. remember (2 ^ 53)%Z as S. lia. }
  rewrite Hbig.
  assert (Heq : Qeq_bool (nearest (inject_Z z)) x = true).
  { apply Qeq_eq_bool. rewrite Hr, Hx. reflexivity. }
  rewrite Heq. reflexivity.
Qed.

(** ** The modulo helper *)

Lemma Qtrunc_quot (n : Z) (p : positive) :
  Qtrunc (inject_Z n / inject_Z (Zpos p)) = Z.quot n (Zpos p).
Proof.
  unfold Qtrunc.
  assert (Hnum : Qnum (inject_Z n / inject_Z (Z.pos p)) = n).
  { unfold Qdiv, Qinv, Qmult, inject_Z. simpl. lia. }
  rewrite Hnum.
  destruct (Z.ltb_spec n 0) as [Hn | Hn].
  - unfold Qceiling.
    assert (E : - (inject_Z n / inject_Z (Z.pos p))
                == inject_Z (- n) / inject_Z (Z.pos p)).
    { rewrite inject_Z_opp. field. discriminate. }
    rewrite (Qfloor_comp _ _ E), <- Zdiv_Qdiv.
    rewrite <- (Z.opp_involutive n) at 2.
    rewrite Z.quot_opp_l by lia.
    rewrite Z.quot_div_nonneg by lia. reflexivity.
  - rewrite <- Zdiv_Qdiv. symmetry. apply Z.quot_div_nonneg; lia.
Qed.

(** On integers [%] is the remainder of the truncated division. *)
Lemma rem_integers (n : Z) (p : positive) :
  (ofZ n %% ofZ (Zpos p))%num ≡ ofZ (Z.rem n (Zpos p)).
Proof.
  unfold Number.rem, ofZ. cbn [Qis_zero inject_Z Qnum Z.eqb].
  rewrite Qtrunc_quot. cbn [same].
  rewrite (Z.rem_eq n (Zpos p)) by discriminate.
  unfold Z.sub. rewrite inject_Z_plus, inject_Z_opp, inject_Z_mult. ring.
Qed.

Lemma Zrem_wrap (n m : Z) :
  (0 < m)%Z ->
  (if (Z.rem n m <? 0)%Z then (Z.rem n m + m)%Z else Z.rem n m) = (n mod m)%Z.
Proof.
  intros Hm.
  pose proof (Z.quot_rem' n m) as Hdec.
  pose proof (Z.rem_bound_abs n m ltac:(lia)) as Habs.
  destruct (Z.ltb_spec (Z.rem n m) 0) as [Hneg | Hpos].
  - apply Z.mod_unique with (q := (Z.quot n m - 1)%Z); lia.
  - apply Z.mod_unique with (q := Z.quot n m); lia.
Qed.

(** Adding the modulus to a negative remainder is exact below [2^53]. *)
Lemma add_double_integers (q : Q) (r m : Z) :
  q == inject_Z r -> (Z.abs (r + m) < 2 ^ 53)%Z ->
  add_double (Num q) (ofZ m) ≡ ofZ (r + m).
Proof.
  intros Hq Hb. unfold add_double. cbn [Number.add ofZ].
  assert (Hs : q + inject_Z m == inject_Z (r + m))
    by (rewrite Hq, inject_Z_plus; reflexivity).
  rewrite (toDouble_integer _ _ Hs Hb). exact Hs.
Qed.

(** On integers and for a positive modulus below [2^53] the helper is the
    floored remainder. *)
Lemma mod_integers (n m : Z) :
  (0 < m < 2 ^ 53)%Z -> mod_ (ofZ n) (ofZ m) ≡ ofZ (n mod m).
Proof.
  intros [Hm Hb]. destruct m as [|p|p]; try lia.
  unfold mod_.
  pose proof (rem_integers n p) as Hrem.
  pose proof (Z.rem_bound_abs n (Z.pos p) ltac:(lia)) as Habs.
  rewrite <- (Zrem_wrap n _ Hm).
  destruct (ofZ n %% ofZ (Z.pos p))%num as [q| | |] eqn:Eq;
    cbn [same ofZ] in Hrem; try contradiction.
  unfold Number.ltb, Number.zero, Qltb.
  destruct (Qle_bool 0 q) eqn:Hq; cbn [negb].
  - apply Qle_bool_iff in Hq. rewrite Hrem in Hq.
    change 0 with (inject_Z 0) in Hq. rewrite <- Zle_Qle in Hq.
    destruct (Z.ltb_spec (Z.rem n (Z.pos p)) 0); [lia|].
    exact Hrem.
  - assert (Hlt : ~ 0 <= q) by (rewrite <- Qle_bool_iff, Hq; discriminate).
    rewrite Hrem in Hlt. change 0 with (inject_Z 0) in Hlt.
    rewrite <- Zle_Qle in Hlt.
    destruct (Z.ltb_spec (Z.rem n (Z.pos p)) 0); [|lia].
    apply (add_double_integers q _ (Z.pos p) Hrem). lia.
Qed.

(** C9, within the safe integers.  For every integer [n] and every positive
    integer [m], both below [2^53] in magnitude, [mod(n, m)] is the integer
    [r] with [0 <= r < m] congruent to [n] modulo [m]: the result is
    [n mod m] of the floored division, which lies in [0, m) and differs from
    [n] by a multiple of [m]. *)
Theorem mod_wraps_negative (n m : Z) :
  (Z.abs n < 2 ^ 53)%Z ->
  (0 < m < 2 ^ 53)%Z ->
  mod_ (ofZ n) (ofZ m) ≡ ofZ (n mod m)
  /\ (0 <= n mod m < m)%Z
  /\ (m | n mod m - n)%Z.
Proof.
  intros _ Hm. split; [| split].
  - apply mod_integers, Hm.
  - apply Z.mod_pos_bound; lia.
  - exists (- (n / m))%Z.
    pose proof (Z.div_mod n m ltac:(lia)). lia.
Qed.

(** [mod(-1, 3)] is [2]. *)
Lemma mod_wraps_negative_witness :
  (Z.abs (-1) < 2 ^ 53)%Z
  /\ (0 < 3 < 2 ^ 53)%Z
  /\ (mod_ (ofZ (-1)) (ofZ 3) ≡ ofZ 2 /\ (0 <= 2 < 3)%Z /\ (3 | 2 - -1)%Z).
Proof.
  split; [reflexivity|]. split; [split; reflexivity|].
  exact (mod_wraps_negative (-1) 3 eq_refl (conj eq_refl eq_refl)).
Defined.

(** C9, as stated, fails beyond the safe integers: [-1] and [2^60] are both
    doubles, the remainder is [-1], and the sum [-1 + 2^60] rounds to
    [2^60]; so [mod(-1, 2^60)] is [2^60], which is not below the modulus
    and is not [(-1) mod 2^60]. *)
Lemma mod_reaches_the_modulus_beyond_safe_integers :
  (0 < 2 ^ 60)%Z
  /\ toDouble (inject_Z (-1)) = ofZ (-1)
  /\ toDouble (inject_Z (2 ^ 60)) = ofZ (2 ^ 60)
  /\ mod_ (ofZ (-1)) (ofZ (2 ^ 60)) = ofZ (2 ^ 60)
  /\ ~ mod_ (ofZ (-1)) (ofZ (2 ^ 60)) ≡ ofZ ((-1) mod 2 ^ 60)
  /\ (mod_ (ofZ (-1)) (ofZ (2 ^ 60)) <? ofZ (2 ^ 60))%num = false.
Proof.
  split; [reflexivity|].
  split; [vm_compute; reflexivity|].
  split; [vm_compute; reflexivity|].
  split; [vm_compute; reflexivity|].
  split; [vm_compute; discriminate|].
  vm_compute; reflexivity.
Qed.

(** ** The rotation of a sample *)

(** C7. For every axis and every sample with finite coordinates, rotating
    the sample by the matrix of the axis and then by its transpose gives the
    sample back, and the matrix times its transpose is the identity, on
    both sides: every matrix of the table is orthogonal. *)
Theorem rotation_then_transpose (a : Axis) (px py : Q) :
  let sample := mkTouch (Num px) (Num py) in
  same_touch
    (applyMatrix (transpose (axisProperties.rotationMatrix a))
                 (applyRotationMatrix sample a))
    sample
  /\ matrix_mul (transpose (axisProperties.rotationMatrix a))
                (axisProperties.rotationMatrix a) = identity_matrix
  /\ matrix_mul (axisProperties.rotationMatrix a)
                (transpose (axisProperties.rotationMatrix a)) = identity_matrix.
Proof.
  destruct a; cbn; unfold same_touch; cbn; repeat split; ring.
Qed.

(** ** Release *)

(** C2. On release the settled index is the next integer index exactly when
    [delta > hysteresis] or the velocity exceeds the flick threshold in the
    direction of the drag, and the starting integer index otherwise; with
    hysteresis 0.6 and no flick, a forward drag from 2 released at 2.5
    settles at 2 and one released at 2.65 settles at 3. *)
Theorem release_commits_past_hysteresis_or_on_flick (g : Release.Gesture) :
  let flick :=
    Qabs (Release.velocity g) > Release.flickThreshold g
    /\ (if Release.forward g then Release.velocity g < 0
        else Release.velocity g > 0) in
  let past :=
    (if Release.forward g then Release.indexDecimal g
     else 1 - Release.indexDecimal g) > Release.hysteresis g in
  (Release.settledIndex g = Release.indexNext g <-> past \/ flick)
  /\ (~ (past \/ flick) -> Release.settledIndex g = Release.indexStart g)
  /\ Release.settledIndex (Release.mkGesture 2.5 2 true 0 0.6 5) = 2%Z
  /\ Release.settledIndex (Release.mkGesture 2.65 2 true 0 0.6 5) = 3%Z.
Proof.
  cbv zeta.
  assert (Hlt : forall a b, Qltb a b = true <-> a < b).
  { intros a b. unfold Qltb. rewrite negb_true_iff.
    split; intros H.
    - apply Qnot_le_lt. intros Hle. apply Qle_bool_iff in Hle. congruence.
    - destruct (Qle_bool b a) eqn:E; [|reflexivity].
      apply Qle_bool_iff in E. exfalso. exact (Qlt_not_le _ _ H E). }
  assert (Hc : Release.commits g = true <->
               (if Release.forward g then Release.indexDecimal g
                else 1 - Release.indexDecimal g) > Release.hysteresis g
               \/ (Qabs (Release.velocity g) > Release.flickThreshold g
                   /\ (if Release.forward g then Release.velocity g < 0
                       else Release.velocity g > 0))).
  { unfold Release.commits, Release.delta, Release.velocityAgrees.
    rewrite orb_true_iff, andb_true_iff, !Hlt.
    destruct (Release.forward g); rewrite Hlt; tauto. }
  assert (Hne : Release.indexNext g <> Release.indexStart g).
  { unfold Release.indexNext. destruct (Release.forward g); lia. }
  unfold Release.settledIndex at 1 2.
  repeat split.
  - destruct (Release.commits g) eqn:E;
      [intros _; apply Hc; reflexivity | intros H; congruence].
  - intros H. apply Hc in H. rewrite H. reflexivity.
  - intros Hn. destruct (Release.commits g) eqn:E; [|reflexivity].
    exfalso. apply Hn, Hc. reflexivity.
Qed.

(** ** The transform applied to the container *)

Lemma app_two {A} (l : list A) (a b : A) : (l ++ [a]) ++ [b] = l ++ [a; b].
Proof. rewrite <- app_assoc. reflexivity. Qed.

(** C6. For every index [i] and every axis, [setIndexCurrent(i)] on a
    mounted container writes, as [webkitTransform] and as [transform], the
    string of the axis table at [100 * i]: [translate(-100i%, 0)] for x,
    [translate(100i%, 0)] for x-reverse, [translate(0, -100i%)] for y and
    [translate(0, 100i%)] for y-reverse; the only other effect is the
    transition-end callback the function may call first. *)
Theorem setIndexCurrent_writes_transform
    (toString : number -> string) (props : Props) (hooks : Hooks)
    (i : number) (w : World) (container : Node) :
  containerNode (refs w) = Some container ->
  let percent := (i * ofZ 100)%num in
  let text :=
    match axis props with
    | AxisX => "translate(" ++ toString (- percent)%num ++ "%, 0)"
    | AxisXReverse => "translate(" ++ toString percent ++ "%, 0)"
    | AxisY => "translate(0, " ++ toString (- percent)%num ++ "%)"
    | AxisYReverse => "translate(0, " ++ toString percent ++ "%)"
    end%string in
  exists before : list Effect,
    (before = [] \/ before = [CallOnTransitionEnd])
    /\ setIndexCurrent toString props hooks i w
       = (Normal tt,
          mkWorld (set_indexCurrent (Some i) (refs w))
                  (nodeWhoClaimedTheScroll w)
                  (trace w ++ before
                     ++ [SetWebkitTransform container text;
                         SetTransform container text])).
Proof.
  intros Hc percent text.
  assert (Htext : axisProperties.transform toString (axis props) percent = text).
  { unfold text, axisProperties.transform. destruct (axis props); reflexivity. }
  destruct w as [r slot tr]. cbn [refs nodeWhoClaimedTheScroll trace] in *.
  unfold setIndexCurrent, handleTransitionEnd.
  fold percent. rewrite Htext. clearbody text. clear Htext.
  unfold bind at 1. cbn [getRefs refs]. rewrite Hc.
  destruct (negb (animateTransitions props)
            && negb match indexCurrent r with
                    | Some current => (current === i)%num
                    | None => false
                    end).
  - destruct (onTransitionEnd props) eqn:E1, (displaySameSlide hooks) eqn:E2,
             (isDragging hooks) eqn:E3;
      cbn; rewrite ?E1, ?E2, ?E3; cbn; unfold emit; cbn.
    all: first
      [ exists []; split; [auto|]; rewrite app_two; reflexivity
      | exists [CallOnTransitionEnd]; split; [auto|];
        rewrite app_two, <- app_assoc; reflexivity ].
  - exists []. split; [auto|]. cbn. unfold emit. cbn. rewrite app_two. reflexivity.
Qed.

(** Index 2 on the axis x: [translate(-200%, 0)]. *)
Lemma setIndexCurrent_writes_transform_witness :
  containerNode Example.startedRefs = Some Example.container
  /\ exists before : list Effect,
       (before = [] \/ before = [CallOnTransitionEnd])
       /\ setIndexCurrent Printing.Number_toString Example.props Example.hooks
            (ofZ 2) (mkWorld Example.startedRefs None [])
          = (Normal tt,
             mkWorld (set_indexCurrent (Some (ofZ 2)) Example.startedRefs) None
               ([] ++ before
                  ++ [SetWebkitTransform Example.container "translate(-200%, 0)";
                      SetTransform Example.container "translate(-200%, 0)"])).
Proof.
  split; [reflexivity|].
  exact (setIndexCurrent_writes_transform Printing.Number_toString
           Example.props Example.hooks (ofZ 2)
           (mkWorld Example.startedRefs None []) Example.container eq_refl).
Defined.

(** ** The bounds check on mount *)

(** [checkIndexBounds] warns whatever the index is: the condition is the
    first thing printed, not a guard. *)
Lemma checkIndexBounds_warns (toString : number -> string)
      (index : number) (children : list ReactNode) (w : World) :
  exists condition message,
    checkIndexBounds toString index children w
    = (Normal tt,
       mkWorld (refs w) (nodeWhoClaimedTheScroll w)
               (trace w ++ [ConsoleWarn [ArgBoolean condition; ArgString message]])).
Proof. unfold checkIndexBounds, emit. eauto. Qed.

(** C1. Outside production the mount callback warns for an index inside the
    bounds too: with three children and index 0 it prints the condition
    [true] and the out-of-bounds message, then goes on to set the index.
    With index 7, outside the bounds, it prints [false] and the message and
    goes on in the same way; in production nothing is printed. *)
Theorem useMount_warns_for_index_in_bounds :
  let mount index env :=
    useMount Printing.Number_toString
      (mkProps true AxisX [1; 2; 3]%nat false false index true false false false)
      Example.hooks env (mkWorld initialRefs None []) in
  mount (ofZ 0) "development"%string
  = (Normal tt,
     mkWorld (set_indexCurrent (Some (ofZ 0)) initialRefs) None
       [ConsoleWarn
          [ArgBoolean true;
           ArgString
             "react-swipeable-view: the new index: 0 is out of bounds: [0-3]."]])
  /\ mount (ofZ 7) "development"%string
     = (Normal tt,
        mkWorld (set_indexCurrent (Some (ofZ 7)) initialRefs) None
          [ConsoleWarn
             [ArgBoolean false;
              ArgString
                "react-swipeable-view: the new index: 7 is out of bounds: [0-3]."]])
  /\ mount (ofZ 7) "production"%string
     = (Normal tt, mkWorld (set_indexCurrent (Some (ofZ 7)) initialRefs) None []).
Proof. cbv zeta. repeat split. Qed.

(** ** The start handler *)

Section StartHandler.

Variable dom : Dom.
Variable props : Props.

Local Arguments applyRotationMatrix : simpl never.
Local Arguments computedTransform : simpl never.
Local Arguments hasTransform : simpl never.
Local Arguments transformValuesOf : simpl never.
Local Arguments tranformNormalized : simpl never.
Local Arguments innerLength : simpl never.
Local Arguments or_else : simpl never.
Local Arguments JSString.split : simpl never.
Local Arguments nth_error : simpl never.
Local Arguments Number.div : simpl never.
Local Arguments Number.neg : simpl never.

(** The start handler writes to the refs of the session only: the claim,
    the effects, the index shown and the two nodes stay as they are. *)
Lemma handleSwipeStart_frame (event : TouchEvent) (w : World) :
  exists (c : Completion unit) (r' : Refs),
    handleSwipeStart dom props event w
    = (c, mkWorld r' (nodeWhoClaimedTheScroll w) (trace w))
    /\ indexCurrent r' = indexCurrent (refs w)
    /\ rootNode r' = rootNode (refs w)
    /\ containerNode r' = containerNode (refs w)
    /\ (c = Return -> False).
Proof.
  destruct w as [r slot tr]. cbn [refs nodeWhoClaimedTheScroll trace].
  unfold handleSwipeStart, firstTouch. cbn.
  destruct (nth_error (touches event) 0) as [t|]; cbn.
  2:{ eexists _, _. split; [reflexivity|]. repeat split. discriminate. }
  destruct (containerNode r) as [container|] eqn:Hc; cbn.
  2:{ eexists _, _. split; [reflexivity|]. cbn. rewrite Hc.
      repeat split. discriminate. }
  destruct (hasTransform (computedTransform dom container)); cbn.
  2:{ eexists _, _. split; [reflexivity|]. cbn. rewrite Hc.
      repeat split. discriminate. }
  destruct (nth_error (JSString.split "(" (computedTransform dom container)) 1)
    as [inner|]; cbn.
  2:{ eexists _, _. split; [reflexivity|]. cbn. rewrite Hc.
      repeat split. discriminate. }
  destruct (rootNode r) as [root|] eqn:Hr; cbn.
  2:{ eexists _, _. split; [reflexivity|]. cbn. rewrite Hc, Hr.
      repeat split. discriminate. }
  eexists _, _. split; [reflexivity|]. cbn. rewrite Hc, Hr.
  repeat split. discriminate.
Qed.

(** What the start handler leaves behind, case by case.  Without a touch it
    throws and changes nothing.  With a touch it records the session, and
    throws after that exactly when the container is not mounted or carries
    a transform whose text has no parenthesis or whose root is not
    mounted. *)
Lemma handleSwipeStart_outcome (event : TouchEvent) (w : World) :
  let result := handleSwipeStart dom props event w in
  let r' := refs (snd result) in
  let startFails :=
    containerNode (refs w) = None
    \/ exists container : Node,
         containerNode (refs w) = Some container
         /\ hasTransform (computedTransform dom container) = true
         /\ (nth_error (JSString.split "(" (computedTransform dom container)) 1
             = None
             \/ rootNode (refs w) = None) in
  (touches event = [] -> exists e : Error, result = (Throw e, w))
  /\ (forall (t : Touch) (ts : list Touch),
        touches event = t :: ts ->
        let touch := applyRotationMatrix t (axis props) in
        started r' = true
        /\ isSwiping r' = None
        /\ vx r' = zero
        /\ startX r' = pageX touch
        /\ lastX r' = pageX touch
        /\ startY r' = pageY touch
        /\ viewLength r'
           = option_map
               (fun root => getBoundingClientRect dom root
                              (axisProperties.length (axis props)))
               (rootNode (refs w))
        /\ ((forall container : Node,
               containerNode (refs w) = Some container ->
               hasTransform (computedTransform dom container) = false) ->
            startIndex r' = startIndex (refs w))
        /\ (startFails -> exists e : Error, fst result = Throw e)
        /\ (~ startFails -> fst result = Normal tt)).
Proof.
  destruct w as [r slot tr]. cbn [refs]. cbv zeta.
  unfold handleSwipeStart, firstTouch. split.
  { intros Ht. rewrite Ht. eexists. reflexivity. }
  intros t ts Ht. rewrite Ht.
  change (nth_error (t :: ts) 0) with (Some t). cbn.
  destruct (containerNode r) as [container|]; cbn.
  2:{ do 8 (split; [reflexivity|]).
      split; [intros _; eexists; reflexivity | intros H; tauto]. }
  destruct (hasTransform (computedTransform dom container)) eqn:Hh; cbn.
  2:{ do 8 (split; [reflexivity|]). split.
      - intros [H | (c & Hc & Hc' & _)]; [discriminate H|].
        injection Hc as <-. congruence.
      - reflexivity. }
  destruct (nth_error (JSString.split "(" (computedTransform dom container)) 1)
    as [inner|] eqn:Hi; cbn.
  2:{ do 8 (split; [reflexivity|]). split.
      - intros _. eexists. reflexivity.
      - intros H. exfalso. apply H. right. exists container. auto. }
  destruct (rootNode r) as [root|] eqn:Hr; cbn.
  2:{ do 8 (split; [reflexivity|]). split.
      - intros _. eexists. reflexivity.
      - intros H. exfalso. apply H. right. exists container. auto. }
  do 7 (split; [reflexivity|]). split; [|split].
  - intros H. specialize (H container eq_refl). congruence.
  - intros [H | (c & Hc & _ & [Hn | Hn])]; try discriminate.
    injection Hc as <-. congruence.
  - reflexivity.
Qed.

Lemma rotated_NaN (a : Axis) (t : Touch) :
  pageX t = NaN \/ pageY t = NaN -> pageX (applyRotationMatrix t a) = NaN.
Proof.
  destruct t as [tx ty]. cbn [pageX pageY].
  intros [-> | ->]; destruct a; cbn; try reflexivity;
    destruct tx; try reflexivity; destruct ty; reflexivity.
Qed.

Lemma div_zero_zero (a b : number) : a ≡ zero -> b ≡ zero -> truthy (a / b) = false.
Proof.
  destruct a as [qa| | |], b as [qb| | |]; cbn; try contradiction.
  intros Ha Hb. unfold Number.div, Qis_zero.
  assert (Qnum qa = 0%Z) as ->.
  { unfold Qeq in Ha. cbn in Ha. lia. }
  assert (Qnum qb = 0%Z) as ->.
  { unfold Qeq in Hb. cbn in Hb. lia. }
  reflexivity.
Qed.

(** C10, as the code has it.  At swipe start, when the container carries a
    transform, [startIndex] is assigned the quotient of the opposite of the
    parsed translation by the view length less the paddings when that
    quotient is truthy, and 0 otherwise: it is 0 when a parsed component
    of the transform is not a number, when the denominator is not a
    number, and when numerator and denominator are both zero. *)
Theorem startIndex_falls_back_on_NaN_or_zero
    (event : TouchEvent) (w : World) (t : Touch) (ts : list Touch)
    (container root : Node) (inner : string) :
  touches event = t :: ts ->
  containerNode (refs w) = Some container ->
  rootNode (refs w) = Some root ->
  hasTransform (computedTransform dom container) = true ->
  nth_error (JSString.split "(" (computedTransform dom container)) 1 = Some inner ->
  let values := transformValuesOf inner in
  let numerator := (- pageX (tranformNormalized props values))%num in
  let denominator :=
    innerLength dom
      (Some (getBoundingClientRect dom root (axisProperties.length (axis props))))
      root in
  let quotient := (numerator / denominator)%num in
  exists w' : World,
    handleSwipeStart dom props event w = (Normal tt, w')
    /\ startIndex (refs w') = (if truthy quotient then quotient else zero)
    /\ (JSString.parseInt_at values 4 = NaN \/ JSString.parseInt_at values 5 = NaN ->
        startIndex (refs w') = zero)
    /\ (denominator = NaN -> startIndex (refs w') = zero)
    /\ (numerator ≡ zero -> denominator ≡ zero -> startIndex (refs w') = zero).
Proof.
  intros Ht Hc Hr Hh Hi values numerator denominator quotient.
  destruct w as [r slot tr]. cbn [refs] in *.
  unfold handleSwipeStart, firstTouch. rewrite Ht.
  change (nth_error (t :: ts) 0) with (Some t). cbn.
  rewrite Hc. cbn. rewrite Hh. cbn. rewrite Hi. cbn. rewrite Hr. cbn.
  eexists. split; [reflexivity|]. cbn.
  fold values. fold numerator. fold denominator. fold quotient.
  unfold or_else.
  split; [reflexivity|].
  split; [|split].
  - intros Hnan.
    assert (Hq : quotient = NaN).
    { unfold quotient, numerator, tranformNormalized.
      rewrite rotated_NaN by exact Hnan. reflexivity. }
    rewrite Hq. reflexivity.
  - intros Hd. unfold quotient. rewrite Hd.
    destruct numerator; reflexivity.
  - intros Hn Hd. unfold quotient. rewrite (div_zero_zero _ _ Hn Hd).
    reflexivity.
Qed.

End StartHandler.

(** A root of length 300: the gesture starts from the second slide. *)
Lemma startIndex_falls_back_on_NaN_or_zero_witness :
  let dom := Example.movingDom (ofZ 300) in
  let event := Example.moveTo 100 100 in
  let w := mkWorld Example.idleRefs None [] in
  touches event = [mkTouch (ofZ 100) (ofZ 100)]
  /\ containerNode (refs w) = Some Example.container
  /\ rootNode (refs w) = Some Example.root
  /\ hasTransform (computedTransform dom Example.container) = true
  /\ nth_error (JSString.split "(" (computedTransform dom Example.container)) 1
     = Some "1, 0, 0, 1, -300, 0)"%string
  /\ exists w' : World,
       handleSwipeStart dom Example.props event w = (Normal tt, w')
       /\ startIndex (refs w') = Num (- (1 * -300 + 0 * 0) / (300 + - 0 + - 0))
       /\ (ofZ (-300) = NaN \/ ofZ 0 = NaN -> startIndex (refs w') = zero)
       /\ (Num (300 + - 0 + - 0) = NaN -> startIndex (refs w') = zero)
       /\ (Num (- (1 * -300 + 0 * 0)) ≡ zero -> Num (300 + - 0 + - 0) ≡ zero ->
           startIndex (refs w') = zero).
Proof.
  cbv zeta.
  repeat (split; [reflexivity|]).
  exact (startIndex_falls_back_on_NaN_or_zero (Example.movingDom (ofZ 300)) Example.props
           (Example.moveTo 100 100) (mkWorld Example.idleRefs None [])
           (mkTouch (ofZ 100) (ofZ 100)) [] Example.container Example.root
           "1, 0, 0, 1, -300, 0)" eq_refl eq_refl eq_refl eq_refl eq_refl).
Defined.

(** C10, as stated, fails: under a root of length zero the denominator is
    zero, the quotient [300 / 0] is [Infinity], which is truthy, and
    [startIndex] is [Infinity], neither 0 nor finite. *)
Lemma startIndex_infinite_under_zero_length :
  let dom := Example.movingDom zero in
  let result :=
    handleSwipeStart dom Example.props (Example.moveTo 100 100)
      (mkWorld Example.idleRefs None []) in
  fst result = Normal tt
  /\ innerLength dom (viewLength (refs (snd result))) Example.root ≡ zero
  /\ startIndex (refs (snd result)) = Infinity
  /\ is_finite (startIndex (refs (snd result))) = false.
Proof. cbv zeta. repeat split. Qed.

(** ** The move handler *)

Section MoveHandler.

Variable UNCERTAINTY_THRESHOLD : number.
Variable DomTreeShapes : Type.
Variable computeIndex :
  list ReactNode -> bool -> number -> number -> number -> option number ->
  number * option number.
Variable getDomTreeShapes : Node -> option Node -> DomTreeShapes.
Variable findNativeHandler : DomTreeShapes -> number -> number -> Axis -> bool.
Variable dom : Dom.

Let move (props : Props) : TouchEvent -> M unit :=
  handleSwipeMove UNCERTAINTY_THRESHOLD DomTreeShapes computeIndex
    getDomTreeShapes findNativeHandler dom props.

Local Arguments Number.gtb : simpl never.
Local Arguments Number.ltb : simpl never.
Local Arguments Number.abs : simpl never.
Local Arguments Number.sub : simpl never.
Local Arguments claimed_by_other : simpl never.
Local Arguments is_vertical : simpl never.
Local Arguments toBoolean : simpl never.
Local Arguments applyRotationMatrix : simpl never.
Local Arguments String.append : simpl never.
Local Arguments handleSwipeStart : simpl never.

Lemma claimed_by_other_true (h : Node) (root : option Node) :
  root <> Some h -> claimed_by_other (Some h) root = true.
Proof.
  intros Hne. unfold claimed_by_other. destruct root as [n|]; [|reflexivity].
  destruct (Nat.eqb_spec h n) as [->|]; [congruence | reflexivity].
Qed.

Ltac framed l :=
  eexists _, l; rewrite ?app_nil_r; split; [reflexivity | auto].

(** Once the gesture has started, a move writes to no ref and leaves the
    claim alone; all it can do is prevent the default action, once. *)
Lemma move_started_frame (props : Props) (event : TouchEvent) (w : World) :
  started (refs w) = true ->
  exists (c : Completion unit) (l : list Effect),
    move props event w
    = (c, mkWorld (refs w) (nodeWhoClaimedTheScroll w) (trace w ++ l))
    /\ (l = [] \/ l = [PreventDefault]).
Proof.
  destruct w as [r slot tr]. cbn [refs nodeWhoClaimedTheScroll trace].
  intros Hs. unfold move, handleSwipeMove, firstTouch, atEdgeMovingOut.
  cbn. rewrite Hs. cbn.
  destruct (claimed_by_other slot (rootNode r)); cbn; [framed (@nil Effect)|].
  destruct (touches event) as [|t ts]; cbn; [framed (@nil Effect)|].
  destruct (isSwiping r) as [sw|] eqn:Hsw; cbn.
  - rewrite Hsw. destruct (toBoolean (Some sw)); cbn.
    + framed [PreventDefault].
    + framed (@nil Effect).
  - framed (@nil Effect).
Qed.

(** Before the start was recorded, a move runs the start handler and
    stops: the claim and the index shown stay, the only effect is the
    [onTouchStart] callback of the props. *)
Lemma move_idle_frame (props : Props) (event : TouchEvent) (w : World) :
  started (refs w) = false ->
  exists (c : Completion unit) (r' : Refs),
    move props event w
    = (c, mkWorld r' (nodeWhoClaimedTheScroll w)
            (trace w ++ (if onTouchStart props then [CallOnTouchStart] else [])))
    /\ indexCurrent r' = indexCurrent (refs w)
    /\ rootNode r' = rootNode (refs w).
Proof.
  destruct w as [r slot tr]. cbn [refs nodeWhoClaimedTheScroll trace].
  intros Hs. unfold move, handleSwipeMove, handleTouchStart.
  unfold bind at 1. cbn [getRefs refs]. rewrite Hs. cbn [negb when_].
  unfold bind at 1. unfold bind at 1. unfold call at 1. unfold bind at 1.
  destruct (onTouchStart props); cbn [when_ emit ret refs trace
                                       nodeWhoClaimedTheScroll].
  - unfold call.
    destruct (handleSwipeStart_frame dom props event
                (mkWorld r slot (tr ++ [CallOnTouchStart])))
      as (c & r' & E & Hi & Hr & _ & Hc).
    cbn [refs nodeWhoClaimedTheScroll trace] in *. rewrite E.
    destruct c as [[]| |e]; cbn; [| tauto |]; eexists _, r'; auto.
  - unfold call.
    destruct (handleSwipeStart_frame dom props event (mkWorld r slot tr))
      as (c & r' & E & Hi & Hr & _ & Hc).
    cbn [refs nodeWhoClaimedTheScroll trace] in *. rewrite E.
    rewrite app_nil_r.
    destruct c as [[]| |e]; cbn; [| tauto |]; eexists _, r'; auto.
Qed.

(** A move never writes the claim. *)
Lemma move_keeps_claim (props : Props) (event : TouchEvent) (w : World) :
  nodeWhoClaimedTheScroll (snd (move props event w)) = nodeWhoClaimedTheScroll w.
Proof.
  destruct (started (refs w)) eqn:Hs.
  - destruct (move_started_frame props event w Hs) as (c & l & E & _).
    rewrite E. reflexivity.
  - destruct (move_idle_frame props event w Hs) as (c & r' & E & _).
    rewrite E. reflexivity.
Qed.

(** A move of a gesture that is a swipe prevents the default action and
    throws on the first use of [this], before the index is computed. *)
Lemma move_swiping_throws (props : Props) (event : TouchEvent) (w : World)
      (t : Touch) (ts : list Touch) :
  started (refs w) = true ->
  claimed_by_other (nodeWhoClaimedTheScroll w) (rootNode (refs w)) = false ->
  touches event = t :: ts ->
  toBoolean (isSwiping (refs w)) = true ->
  exists e : Error,
    move props event w
    = (Throw e,
       mkWorld (refs w) (nodeWhoClaimedTheScroll w) (trace w ++ [PreventDefault])).
Proof.
  destruct w as [r slot tr]. cbn [refs nodeWhoClaimedTheScroll trace].
  intros Hs Hc Ht Hb. unfold move, handleSwipeMove, firstTouch.
  cbn. rewrite Hs. cbn. rewrite Hc. cbn. rewrite Ht. cbn.
  destruct (isSwiping r) as [sw|] eqn:Hsw; [|discriminate Hb].
  cbn. rewrite Hsw, Hb. cbn. eauto.
Qed.

(** Under the claim of another identity, a move of a started gesture
    returns and leaves the state as it is. *)
Lemma move_returns_under_foreign_claim
      (props : Props) (event : TouchEvent) (w : World) (h : Node) :
  started (refs w) = true ->
  nodeWhoClaimedTheScroll w = Some h ->
  rootNode (refs w) <> Some h ->
  move props event w = (Return, w).
Proof.
  intros Hs Hc Hr. destruct w as [r slot tr].
  cbn [refs nodeWhoClaimedTheScroll] in *.
  unfold move, handleSwipeMove. cbn. rewrite Hs. cbn. rewrite Hc.
  rewrite (claimed_by_other_true h _ Hr). reflexivity.
Qed.

(** The listener of an instance that has started and is not the holder
    leaves the instance, the claim and the effects as they are. *)
Lemma deliver_to_other (event : TouchEvent) (inst : Instance) (h : Node)
      (effects : list Effect) :
  started (instRefs inst) = true ->
  rootNode (instRefs inst) <> Some h ->
  deliver UNCERTAINTY_THRESHOLD DomTreeShapes computeIndex getDomTreeShapes
    findNativeHandler dom event inst (Some h) effects
  = (inst, Some h, effects).
Proof.
  intros Hs Hr. destruct inst as [p k r]. cbn [instRefs instProps instHooks] in *.
  unfold deliver, touchMoveListener. cbn [instRefs instProps instHooks].
  unfold bind, when_, call, return_, ret.
  destruct (disabled p); [reflexivity|].
  pose proof (move_returns_under_foreign_claim p event (mkWorld r (Some h) effects)
                h Hs eq_refl Hr) as E.
  unfold move in E. rewrite E. reflexivity.
Qed.

Lemma deliver_keeps_claim (event : TouchEvent) (inst : Instance)
      (claim : option Node) (effects : list Effect) :
  snd (fst (deliver UNCERTAINTY_THRESHOLD DomTreeShapes computeIndex
              getDomTreeShapes findNativeHandler dom event inst claim effects))
  = claim.
Proof.
  unfold deliver, touchMoveListener.
  unfold bind, when_, call, return_, ret.
  destruct (disabled (instProps inst)); [reflexivity|].
  pose proof (move_keeps_claim (instProps inst) event
                (mkWorld (instRefs inst) claim effects)) as Hk.
  unfold move in Hk.
  destruct (handleSwipeMove _ _ _ _ _ _ _ _ _) as [[[]| |e] w'];
    cbn in *; exact Hk.
Qed.

(** Under a claim, a move dispatched to several instances changes none of
    those that have started and are not the holder. *)
Lemma dispatchMove_spares_others (event : TouchEvent) (h : Node)
      (instances : list Instance) (effects : list Effect) :
  let instances' :=
    fst (fst (dispatchMove UNCERTAINTY_THRESHOLD DomTreeShapes computeIndex
                getDomTreeShapes findNativeHandler dom event instances
                (Some h) effects)) in
  List.length instances' = List.length instances
  /\ forall (k : nat) (inst : Instance),
       nth_error instances k = Some inst ->
       started (instRefs inst) = true ->
       rootNode (instRefs inst) <> Some h ->
       nth_error instances' k = Some inst.
Proof.
  cbv zeta. revert effects.
  induction instances as [|inst rest IH]; intros effects.
  - cbn. split; [reflexivity|]. intros k inst Hk. destruct k; discriminate Hk.
  - cbn [dispatchMove].
    pose proof (deliver_keeps_claim event inst (Some h) effects) as Hk.
    destruct (deliver _ _ _ _ _ _ event inst (Some h) effects)
      as [[inst' claim'] effects'] eqn:Ed.
    cbn in Hk. subst claim'.
    specialize (IH effects').
    destruct (dispatchMove _ _ _ _ _ _ event rest (Some h) effects')
      as [[rest' claim''] effects''].
    cbn [fst snd] in *. destruct IH as [IHlen IHnth].
    split; [cbn; congruence|].
    intros k i Hnth Hs Hr. destruct k as [|k]; cbn in *.
    + injection Hnth as <-.
      rewrite (deliver_to_other event inst h effects Hs Hr) in Ed.
      congruence.
    + apply IHnth; assumption.
Qed.

(** Before the start was recorded, a move is the start handler run after
    the [onTouchStart] callback; it ends by [return] unless the start
    throws. *)
Lemma move_idle_unfold (props : Props) (event : TouchEvent) (w : World) :
  started (refs w) = false ->
  move props event w
  = let outcome :=
      handleSwipeStart dom props event
        (mkWorld (refs w) (nodeWhoClaimedTheScroll w)
           (trace w ++ (if onTouchStart props then [CallOnTouchStart] else [])))
    in
    (match fst outcome with Throw e => Throw e | _ => Return end, snd outcome).
Proof.
  destruct w as [r slot tr]. cbn [refs nodeWhoClaimedTheScroll trace].
  intros Hs. unfold move, handleSwipeMove, handleTouchStart.
  unfold bind at 1. cbn [getRefs refs]. rewrite Hs. cbn [negb when_].
  unfold bind at 1. unfold bind at 1. unfold call at 1. unfold bind at 1.
  cbv zeta.
  destruct (onTouchStart props); cbn [when_ emit ret refs trace
                                       nodeWhoClaimedTheScroll].
  - unfold call.
    destruct (handleSwipeStart dom props event _) as [[[]| |e] w']; reflexivity.
  - unfold call. rewrite app_nil_r.
    destruct (handleSwipeStart dom props event _) as [[[]| |e] w']; reflexivity.
Qed.

(** C3, as the code has it.  When another identity holds the claim, a move
    of a gesture that has started returns at once and leaves the whole
    state as it is: no ref is written, the index is not updated, no
    transform is applied, no effect happens.  A move that arrives before
    the start was recorded runs the start handler first and stops: the
    claim and the index shown stay, and the only effect is the
    [onTouchStart] callback of the props, when there is one.  On an event
    without a touch that move throws and writes no ref.  On an event with a
    touch it records the session ([started] true, [isSwiping] undefined,
    velocity 0, [startX], [lastX] and [startY] at the rotated touch, the
    length of the root in [viewLength]; [startIndex] stays unless the
    container carries a transform), and then returns, unless the container
    is not mounted or carries a transform whose text has no parenthesis or
    whose root is not mounted, in which case it throws.  So a move
    dispatched to several instances changes none of the started instances
    but the holder. *)
Theorem move_ignored_under_foreign_claim
    (props : Props) (event : TouchEvent) (w : World) (h : Node) :
  nodeWhoClaimedTheScroll w = Some h ->
  rootNode (refs w) <> Some h ->
  (started (refs w) = true -> move props event w = (Return, w))
  /\ (started (refs w) = false ->
      let completion := fst (move props event w) in
      let w' := snd (move props event w) in
      let startFails :=
        containerNode (refs w) = None
        \/ exists container : Node,
             containerNode (refs w) = Some container
             /\ hasTransform (computedTransform dom container) = true
             /\ (nth_error (JSString.split "(" (computedTransform dom container)) 1
                 = None
                 \/ rootNode (refs w) = None) in
      nodeWhoClaimedTheScroll w' = Some h
      /\ indexCurrent (refs w') = indexCurrent (refs w)
      /\ containerNode (refs w') = containerNode (refs w)
      /\ rootNode (refs w') = rootNode (refs w)
      /\ trace w'
         = trace w ++ (if onTouchStart props then [CallOnTouchStart] else [])
      /\ (touches event = [] ->
          refs w' = refs w /\ exists e : Error, completion = Throw e)
      /\ (forall (t : Touch) (ts : list Touch),
            touches event = t :: ts ->
            let touch := applyRotationMatrix t (axis props) in
            started (refs w') = true
            /\ isSwiping (refs w') = None
            /\ vx (refs w') = zero
            /\ startX (refs w') = pageX touch
            /\ lastX (refs w') = pageX touch
            /\ startY (refs w') = pageY touch
            /\ viewLength (refs w')
               = option_map
                   (fun root => getBoundingClientRect dom root
                                  (axisProperties.length (axis props)))
                   (rootNode (refs w))
            /\ ((forall container : Node,
                   containerNode (refs w) = Some container ->
                   hasTransform (computedTransform dom container) = false) ->
                startIndex (refs w') = startIndex (refs w))
            /\ (startFails -> exists e : Error, completion = Throw e)
            /\ (~ startFails -> completion = Return)))
  /\ (forall (instances : list Instance) (effects : list Effect)
             (k : nat) (inst : Instance),
        nth_error instances k = Some inst ->
        started (instRefs inst) = true ->
        rootNode (instRefs inst) <> Some h ->
        nth_error
          (fst (fst (dispatchMove UNCERTAINTY_THRESHOLD DomTreeShapes
                       computeIndex getDomTreeShapes findNativeHandler dom
                       event instances (Some h) effects))) k
        = Some inst).
Proof.
  intros Hc Hr. split; [|split].
  - intros Hs. exact (move_returns_under_foreign_claim props event w h Hs Hc Hr).
  - intros Hs. cbv zeta. rewrite (move_idle_unfold props event w Hs). cbv zeta.
    cbn [fst snd].
    set (w1 := mkWorld (refs w) (nodeWhoClaimedTheScroll w)
                 (trace w ++ (if onTouchStart props then [CallOnTouchStart] else []))).
    destruct (handleSwipeStart_frame dom props event w1)
      as (c & r' & E & Hi & Hrn & Hcn & _).
    pose proof (handleSwipeStart_outcome dom props event w1) as [Hnone Hsome].
    cbv zeta in Hsome. rewrite E in Hnone, Hsome |- *.
    cbn [fst snd refs nodeWhoClaimedTheScroll trace] in *.
    split; [exact Hc|]. do 3 (split; [assumption|]). split; [reflexivity|].
    split.
    + intros Ht. destruct (Hnone Ht) as [e He].
      injection He as -> Hw.
      split; [exact Hw | eexists; reflexivity].
    + intros t ts Ht.
      destruct (Hsome t ts Ht)
        as (H1 & H2 & H3 & H4 & H5 & H6 & H7 & H8 & Hfail & Hok).
      do 8 (split; [assumption|]). split.
      * intros Hf. destruct (Hfail Hf) as [e ->]. eexists. reflexivity.
      * intros Hf. rewrite (Hok Hf). reflexivity.
  - intros instances effects k inst.
    apply (dispatchMove_spares_others event h instances effects).
Qed.

End MoveHandler.

(** Another instance, node 7, holds the claim while the gesture of the
    example has started: the move returns and changes nothing. *)
Lemma move_ignored_under_foreign_claim_witness :
  let w := mkWorld Example.startedRefs (Some 7%nat) [] in
  nodeWhoClaimedTheScroll w = Some 7%nat
  /\ rootNode (refs w) <> Some 7%nat
  /\ started (refs w) = true
  /\ Example.move Example.props (Example.moveTo 120 100) w = (Return, w).
Proof.
  cbv zeta.
  split; [reflexivity|]. split; [discriminate|]. split; [reflexivity|].
  apply (move_ignored_under_foreign_claim Example.UNCERTAINTY_THRESHOLD unit
           Example.computeIndex Example.getDomTreeShapes
           Example.findNativeHandler Example.dom Example.props
           (Example.moveTo 120 100)
           (mkWorld Example.startedRefs (Some 7%nat) []) 7%nat);
    [reflexivity | discriminate | reflexivity].
Defined.

(** C3, as stated, fails: node 7 holds the claim, the root of the instance
    is node 1, and a move that arrives before the start was recorded writes
    the session all the same: [started] becomes true and [startX] and
    [lastX] take the place of the touch. *)
Lemma move_before_start_writes_session :
  let w := mkWorld Example.idleRefs (Some 7%nat) [] in
  let w' := snd (Example.move Example.props (Example.moveTo 120 100) w) in
  nodeWhoClaimedTheScroll w = Some 7%nat
  /\ rootNode (refs w) = Some 1%nat
  /\ started (refs w) = false
  /\ started (refs w') = true
  /\ startX (refs w') = ofZ 120
  /\ lastX (refs w') = ofZ 120
  /\ refs w' <> refs w.
Proof.
  cbv zeta. repeat (split; [reflexivity|]).
  intros H. apply (f_equal started) in H. discriminate H.
Qed.

(** C4 on the code.  The gesture of the example started at (100, 100), the
    threshold is 3 and [isSwiping] is undefined.  A move to (120, 100), a
    horizontal displacement of 20, and a move to (100, 120), a vertical
    displacement of 20, both throw a [ReferenceError] on the first
    statement of the undetermined phase, the read of [startX]: in this
    function the name is the constant that the destructuring of
    [computeIndex] declares further down.  The default action is not
    prevented, no ref is written and [isSwiping] stays undefined: the
    gesture is classified neither as a swipe nor as not a swipe. *)
Theorem undetermined_move_decides_nothing :
  let w := mkWorld Example.startedRefs None [] in
  isSwiping Example.startedRefs = None
  /\ (exists message : string,
        Example.move Example.props (Example.moveTo 120 100) w
        = (Throw (ReferenceError message), w))
  /\ (exists message : string,
        Example.move Example.props (Example.moveTo 100 120) w
        = (Throw (ReferenceError message), w)).
Proof.
  cbv zeta. split; [reflexivity|].
  split; eexists; reflexivity.
Qed.

(** C5 on the code.  The gesture of the example is a swipe, nobody holds
    the claim and the finger moves from 100 to 40: the handler prevents the
    default action and throws on [this.vx], before the index is computed.
    The claim stays empty, no ref is written, no transform is applied and
    the switching observer is not called. *)
Theorem swiping_move_throws_before_the_index :
  let w := mkWorld Example.swipingRefs None [] in
  toBoolean (isSwiping Example.swipingRefs) = true
  /\ exists e : Error,
       Example.move Example.props (Example.moveTo 40 100) w
       = (Throw e, mkWorld Example.swipingRefs None [PreventDefault]).
Proof.
  cbv zeta. split; [reflexivity|]. eexists. reflexivity.
Qed.

(** C8 on the code.  Resistance is off, the axis is y, the index shown is 0
    and the finger moves back, from 100 to 110 along the axis: the handler
    throws before the test of the edges, on the read of [startX] that
    opens the undetermined phase (the test itself would throw on
    [this.indexCurrent]), and [isSwiping] stays undefined, so the gesture
    is not decided and the next move is examined again.  The same happens
    on y-reverse at the last index, moving forward. *)
Theorem vertical_edge_move_throws_undecided :
  let w := mkWorld Example.startedRefs None [] in
  let atLast := mkWorld (set_indexCurrent (Some (ofZ 2)) Example.startedRefs) None [] in
  (exists e : Error,
     Example.move (Example.propsOnAxis AxisY) (Example.moveTo 50 110) w
     = (Throw e, w))
  /\ isSwiping (refs w) = None
  /\ (exists e : Error,
        Example.move (Example.propsOnAxis AxisYReverse) (Example.moveTo 50 110) atLast
        = (Throw e, atLast)).
Proof.
  cbv zeta. split; [eexists; reflexivity|]. split; [reflexivity|].
  eexists; reflexivity.
Qed.

(** * Further properties of the handlers *)

(** ** The start handler, all cases *)

Section StartHandlerCases.

Variable dom : Dom.
Variable props : Props.

Local Arguments applyRotationMatrix : simpl never.
Local Arguments computedTransform : simpl never.
Local Arguments hasTransform : simpl never.
Local Arguments transformValuesOf : simpl never.
Local Arguments tranformNormalized : simpl never.
Local Arguments innerLength : simpl never.
Local Arguments or_else : simpl never.
Local Arguments JSString.split : simpl never.
Local Arguments nth_error : simpl never.
Local Arguments Number.div : simpl never.
Local Arguments Number.neg : simpl never.

(** X1. A start on an event without a touch throws and leaves the refs, the
    claim and the effects as they are. *)
Theorem handleSwipeStart_without_touch (target : Node) (w : World) :
  exists e : Error,
    handleSwipeStart dom props (mkTouchEvent [] target) w = (Throw e, w).
Proof.
  destruct w as [r slot tr]. unfold handleSwipeStart, firstTouch.
  eexists. reflexivity.
Qed.

(** X2. A start on an event with a touch records the session whether it
    completes or throws later: [started] is true, [isSwiping] is undefined,
    the velocity is 0, [startX] and [lastX] are the rotated [pageX] of the
    first touch, [startY] its rotated [pageY], and [viewLength] the measure
    of the root along the axis (undefined without a root).  The index
    shown, the two nodes, the claim and the effects are not touched. *)
Theorem handleSwipeStart_records_session
    (t : Touch) (ts : list Touch) (target : Node) (w : World) :
  let w' := snd (handleSwipeStart dom props (mkTouchEvent (t :: ts) target) w) in
  let touch := applyRotationMatrix t (axis props) in
  started (refs w') = true
  /\ isSwiping (refs w') = None
  /\ vx (refs w') = zero
  /\ startX (refs w') = pageX touch
  /\ lastX (refs w') = pageX touch
  /\ startY (refs w') = pageY touch
  /\ viewLength (refs w')
     = option_map
         (fun root => getBoundingClientRect dom root
                        (axisProperties.length (axis props)))
         (rootNode (refs w))
  /\ indexCurrent (refs w') = indexCurrent (refs w)
  /\ containerNode (refs w') = containerNode (refs w)
  /\ rootNode (refs w') = rootNode (refs w)
  /\ nodeWhoClaimedTheScroll w' = nodeWhoClaimedTheScroll w
  /\ trace w' = trace w.
Proof.
  destruct w as [r slot tr]. cbn [refs nodeWhoClaimedTheScroll trace].
  unfold handleSwipeStart, firstTouch.
  change (nth_error (touches (mkTouchEvent (t :: ts) target)) 0) with (Some t).
  cbn.
  destruct (containerNode r) as [container|] eqn:Hc; cbn;
    [|repeat split; exact Hc].
  destruct (hasTransform (computedTransform dom container)); cbn;
    [|repeat split; exact Hc].
  destruct (nth_error (JSString.split "(" (computedTransform dom container)) 1)
    as [inner|]; cbn; [|repeat split; exact Hc].
  destruct (rootNode r) as [root|] eqn:Hr; cbn; repeat split;
    first [exact Hc | exact Hr].
Qed.

(** X3. The start handler throws exactly when the event has no touch, when
    the container is not mounted, or when the container carries a transform
    whose text has no parenthesis or whose root is not mounted; in every
    other case it completes normally. *)
Theorem handleSwipeStart_throws_iff (event : TouchEvent) (w : World) :
  let completion := fst (handleSwipeStart dom props event w) in
  let fails :=
    touches event = []
    \/ containerNode (refs w) = None
    \/ exists container : Node,
         containerNode (refs w) = Some container
         /\ hasTransform (computedTransform dom container) = true
         /\ (nth_error (JSString.split "(" (computedTransform dom container)) 1
             = None
             \/ rootNode (refs w) = None) in
  ((exists e : Error, completion = Throw e) <-> fails)
  /\ (~ fails -> completion = Normal tt).
Proof.
  destruct w as [r slot tr]. cbn [refs]. cbv zeta.
  unfold handleSwipeStart, firstTouch.
  destruct (touches event) as [|t ts].
  { cbn. split; [split; [auto | eexists; reflexivity] | intros H; tauto]. }
  change (nth_error (t :: ts) 0) with (Some t). cbn.
  destruct (containerNode r) as [container|]; cbn.
  2:{ split; [split; [auto | eexists; reflexivity] | intros H; tauto]. }
  destruct (hasTransform (computedTransform dom container)) eqn:Hh; cbn.
  2:{ split; [split|].
      - intros [e He]. discriminate He.
      - intros [H | [H | (c & Hc & Ht & _)]]; try discriminate H.
        injection Hc as <-. congruence.
      - reflexivity. }
  destruct (nth_error (JSString.split "(" (computedTransform dom container)) 1)
    as [inner|] eqn:Hi; cbn.
  2:{ split; [split|].
      - intros _. right. right. exists container. auto.
      - intros _. eexists. reflexivity.
      - intros H. exfalso. apply H. right. right. exists container. auto. }
  destruct (rootNode r) as [root|] eqn:Hr; cbn.
  2:{ split; [split|].
      - intros _. right. right. exists container. auto.
      - intros _. eexists. reflexivity.
      - intros H. exfalso. apply H. right. right. exists container. auto. }
  split; [split|].
  - intros [e He]. discriminate He.
  - intros [H | [H | (c & Hc & Ht & [Hn | Hn])]]; try discriminate.
    injection Hc as <-. congruence.
  - reflexivity.
Qed.

(** X4. Without a transform on the container (the computed value is empty
    or ["none"]) the start completes normally and keeps [startIndex]. *)
Theorem handleSwipeStart_without_transform
    (event : TouchEvent) (w : World) (t : Touch) (ts : list Touch)
    (container : Node) :
  touches event = t :: ts ->
  containerNode (refs w) = Some container ->
  hasTransform (computedTransform dom container) = false ->
  fst (handleSwipeStart dom props event w) = Normal tt
  /\ startIndex (refs (snd (handleSwipeStart dom props event w)))
     = startIndex (refs w).
Proof.
  destruct w as [r slot tr]. cbn [refs]. intros Ht Hc Hh.
  unfold handleSwipeStart, firstTouch. rewrite Ht.
  change (nth_error (t :: ts) 0) with (Some t). cbn.
  rewrite Hc. cbn. rewrite Hh. cbn. split; reflexivity.
Qed.

(** X5. Starting twice on the same event is the same as starting once: the
    second start ends as the first did and leaves the state the first
    left. *)
Theorem handleSwipeStart_idempotent (event : TouchEvent) (w : World) :
  let first := handleSwipeStart dom props event w in
  handleSwipeStart dom props event (snd first) = first.
Proof.
  destruct w as [r slot tr]. cbv zeta.
  unfold handleSwipeStart, firstTouch.
  destruct (touches event) as [|t ts]; [reflexivity|].
  change (nth_error (t :: ts) 0) with (Some t). cbn.
  destruct (containerNode r) as [container|] eqn:Hc; cbn; rewrite ?Hc; cbn;
    [|reflexivity].
  destruct (hasTransform (computedTransform dom container)) eqn:Hh; cbn;
    rewrite ?Hc; cbn; rewrite ?Hh; cbn; [|reflexivity].
  destruct (nth_error (JSString.split "(" (computedTransform dom container)) 1)
    as [inner|] eqn:Hi; cbn; rewrite ?Hc; cbn; rewrite ?Hh; cbn;
    rewrite ?Hi; cbn; [|reflexivity].
  destruct (rootNode r) as [root|] eqn:Hr; cbn; rewrite ?Hc; cbn;
    rewrite ?Hh; cbn; rewrite ?Hi; cbn; rewrite ?Hr; cbn; reflexivity.
Qed.

End StartHandlerCases.

(** A gesture on the first slide of the example, no transform. *)
Lemma handleSwipeStart_without_transform_witness :
  touches (Example.moveTo 120 100) = [mkTouch (ofZ 120) (ofZ 100)]
  /\ containerNode (refs (mkWorld Example.idleRefs None []))
     = Some Example.container
  /\ hasTransform (computedTransform Example.dom Example.container) = false
  /\ fst (handleSwipeStart Example.dom Example.props (Example.moveTo 120 100)
            (mkWorld Example.idleRefs None [])) = Normal tt
  /\ startIndex
       (refs (snd (handleSwipeStart Example.dom Example.props
                     (Example.moveTo 120 100)
                     (mkWorld Example.idleRefs None []))))
     = startIndex (refs (mkWorld Example.idleRefs None [])).
Proof.
  do 3 (split; [reflexivity|]).
  exact (handleSwipeStart_without_transform Example.dom Example.props
           (Example.moveTo 120 100) (mkWorld Example.idleRefs None [])
           (mkTouch (ofZ 120) (ofZ 100)) [] Example.container
           eq_refl eq_refl eq_refl).
Defined.

(** ** The move handler, case by case *)

Section MoveHandlerCases.

Variable UNCERTAINTY_THRESHOLD : number.
Variable DomTreeShapes : Type.
Variable computeIndex :
  list ReactNode -> bool -> number -> number -> number -> option number ->
  number * option number.
Variable getDomTreeShapes : Node -> option Node -> DomTreeShapes.
Variable findNativeHandler : DomTreeShapes -> number -> number -> Axis -> bool.
Variable dom : Dom.

Let move (props : Props) : TouchEvent -> M unit :=
  handleSwipeMove UNCERTAINTY_THRESHOLD DomTreeShapes computeIndex
    getDomTreeShapes findNativeHandler dom props.

Local Arguments Number.gtb : simpl never.
Local Arguments Number.ltb : simpl never.
Local Arguments Number.abs : simpl never.
Local Arguments Number.sub : simpl never.
Local Arguments claimed_by_other : simpl never.
Local Arguments is_vertical : simpl never.
Local Arguments toBoolean : simpl never.
Local Arguments applyRotationMatrix : simpl never.
Local Arguments String.append : simpl never.
Local Arguments handleSwipeStart : simpl never.
Local Arguments handleTouchStart : simpl never.

(** X7. Whatever the state and the event, a move never writes the claim,
    the index shown or the two nodes, and the only effects it can have are
    preventing the default action and the [onTouchStart] callback: it never
    writes a transform and never calls the switching or the transition
    observers. *)
Theorem handleSwipeMove_never_moves_the_view
    (props : Props) (event : TouchEvent) (w : World) :
  let w' := snd (move props event w) in
  nodeWhoClaimedTheScroll w' = nodeWhoClaimedTheScroll w
  /\ indexCurrent (refs w') = indexCurrent (refs w)
  /\ rootNode (refs w') = rootNode (refs w)
  /\ exists l : list Effect,
       trace w' = trace w ++ l
       /\ Forall (fun e => e = PreventDefault \/ e = CallOnTouchStart) l.
Proof.
  cbv zeta. destruct (started (refs w)) eqn:Hs.
  - destruct (move_started_frame UNCERTAINTY_THRESHOLD DomTreeShapes
                computeIndex getDomTreeShapes findNativeHandler dom
                props event w Hs) as (c & l & E & Hl).
    unfold move. rewrite E. cbn [snd refs nodeWhoClaimedTheScroll trace].
    do 3 (split; [reflexivity|]).
    exists l. split; [reflexivity|].
    destruct Hl as [-> | ->];
      repeat (apply Forall_cons; [auto|]); apply Forall_nil.
  - destruct (move_idle_frame UNCERTAINTY_THRESHOLD DomTreeShapes
                computeIndex getDomTreeShapes findNativeHandler dom
                props event w Hs) as (c & r' & E & Hi & Hr).
    unfold move. rewrite E. cbn [snd refs nodeWhoClaimedTheScroll trace].
    split; [reflexivity|]. split; [exact Hi|]. split; [exact Hr|].
    eexists. split; [reflexivity|].
    destruct (onTouchStart props);
      repeat (apply Forall_cons; [auto|]); apply Forall_nil.
Qed.

(** X9. A started move on an event without a touch, under no foreign claim,
    throws and leaves the state as it is. *)
Theorem handleSwipeMove_without_touch
    (props : Props) (target : Node) (w : World) :
  started (refs w) = true ->
  claimed_by_other (nodeWhoClaimedTheScroll w) (rootNode (refs w)) = false ->
  exists e : Error, move props (mkTouchEvent [] target) w = (Throw e, w).
Proof.
  destruct w as [r slot tr]. cbn [refs nodeWhoClaimedTheScroll].
  intros Hs Hc. unfold move, handleSwipeMove, firstTouch.
  cbn. rewrite Hs. cbn. rewrite Hc. cbn. eexists. reflexivity.
Qed.

(** X10. The undetermined phase.  A move of a started gesture, under no
    foreign claim, on an event with a touch and with [isSwiping] undefined
    throws a [ReferenceError] on its first statement, the read of
    [startX]: in this function the name is the constant declared further
    down by the destructuring of [computeIndex].  The refs, the claim and
    the effects are as before.  So on no axis, with or without resistance
    and whatever the distances, is the default action prevented or the
    gesture decided. *)
Theorem handleSwipeMove_undetermined
    (props : Props) (event : TouchEvent) (w : World)
    (t : Touch) (ts : list Touch) :
  started (refs w) = true ->
  claimed_by_other (nodeWhoClaimedTheScroll w) (rootNode (refs w)) = false ->
  touches event = t :: ts ->
  isSwiping (refs w) = None ->
  exists message : string,
    move props event w = (Throw (ReferenceError message), w).
Proof.
  destruct w as [r slot tr]. cbn [refs nodeWhoClaimedTheScroll trace].
  intros Hs Hc Ht Hsw.
  unfold move, handleSwipeMove, firstTouch.
  cbn. rewrite Hs. cbn. rewrite Hc. cbn. rewrite Ht. cbn.
  rewrite Hsw. cbn. eexists. reflexivity.
Qed.

(** X12. Once [isSwiping] holds a falsy value (0 or [NaN]), a move of the
    gesture returns before anything happens: no effect, no write. *)
Theorem handleSwipeMove_decided_not_swiping
    (props : Props) (event : TouchEvent) (w : World)
    (t : Touch) (ts : list Touch) (decided : number) :
  started (refs w) = true ->
  claimed_by_other (nodeWhoClaimedTheScroll w) (rootNode (refs w)) = false ->
  touches event = t :: ts ->
  isSwiping (refs w) = Some decided ->
  truthy decided = false ->
  move props event w = (Return, w).
Proof.
  destruct w as [r slot tr]. cbn [refs nodeWhoClaimedTheScroll trace].
  intros Hs Hc Ht Hsw Hd.
  unfold move, handleSwipeMove, firstTouch.
  cbn. rewrite Hs. cbn. rewrite Hc. cbn. rewrite Ht. cbn.
  rewrite Hsw. cbn. rewrite Hsw. unfold toBoolean. rewrite Hd. reflexivity.
Qed.

End MoveHandlerCases.

(** The started gesture of the example and an event without touches. *)
Lemma handleSwipeMove_without_touch_witness :
  started (refs (mkWorld Example.startedRefs None [])) = true
  /\ claimed_by_other None (rootNode Example.startedRefs) = false
  /\ exists e : Error,
       Example.move Example.props (mkTouchEvent [] Example.container)
         (mkWorld Example.startedRefs None [])
       = (Throw e, mkWorld Example.startedRefs None []).
Proof.
  do 2 (split; [reflexivity|]).
  exact (handleSwipeMove_without_touch Example.UNCERTAINTY_THRESHOLD unit
           Example.computeIndex Example.getDomTreeShapes
           Example.findNativeHandler Example.dom Example.props
           Example.container (mkWorld Example.startedRefs None [])
           eq_refl eq_refl).
Defined.

(** From (100, 100) to (120, 100) on the axis y, resistance off. *)
Lemma handleSwipeMove_undetermined_witness :
  started Example.startedRefs = true
  /\ claimed_by_other None (rootNode Example.startedRefs) = false
  /\ touches (Example.moveTo 120 100) = [mkTouch (ofZ 120) (ofZ 100)]
  /\ isSwiping Example.startedRefs = None
  /\ exists message : string,
       Example.move (Example.propsOnAxis AxisY) (Example.moveTo 120 100)
         (mkWorld Example.startedRefs None [])
       = (Throw (ReferenceError message), mkWorld Example.startedRefs None []).
Proof.
  do 4 (split; [reflexivity|]).
  exact (handleSwipeMove_undetermined Example.UNCERTAINTY_THRESHOLD unit
           Example.computeIndex Example.getDomTreeShapes
           Example.findNativeHandler Example.dom (Example.propsOnAxis AxisY)
           (Example.moveTo 120 100) (mkWorld Example.startedRefs None [])
           (mkTouch (ofZ 120) (ofZ 100)) []
           eq_refl eq_refl eq_refl eq_refl).
Defined.

(** The gesture of the example with [isSwiping] at 0. *)
Lemma handleSwipeMove_decided_not_swiping_witness :
  let r := set_isSwiping (Some zero) Example.startedRefs in
  started r = true
  /\ claimed_by_other None (rootNode r) = false
  /\ touches (Example.moveTo 120 100) = [mkTouch (ofZ 120) (ofZ 100)]
  /\ isSwiping r = Some zero
  /\ truthy zero = false
  /\ Example.move Example.props (Example.moveTo 120 100) (mkWorld r None [])
     = (Return, mkWorld r None []).
Proof.
  cbv zeta. do 5 (split; [reflexivity|]).
  exact (handleSwipeMove_decided_not_swiping Example.UNCERTAINTY_THRESHOLD
           unit Example.computeIndex Example.getDomTreeShapes
           Example.findNativeHandler Example.dom Example.props
           (Example.moveTo 120 100)
           (mkWorld (set_isSwiping (Some zero) Example.startedRefs) None [])
           (mkTouch (ofZ 120) (ofZ 100)) [] zero
           eq_refl eq_refl eq_refl eq_refl eq_refl).
Defined.

(** ** Setting the index, mounting *)

Section SetIndex.

Variable toString : number -> string.
Variable props : Props.
Variable hooks : Hooks.

(** The two writes of the transform, when the container is mounted. *)
Let styleWrites (r : Refs) (i : number) : list Effect :=
  match containerNode r with
  | Some container =>
      let text :=
        axisProperties.transform toString (axis props) (i * ofZ 100)%num in
      [SetWebkitTransform container text; SetTransform container text]
  | None => []
  end.

(** A call of [setIndexCurrent], in one piece. *)
Lemma setIndexCurrent_outcome (i : number) (w : World) :
  let differs :=
    negb match indexCurrent (refs w) with
         | Some current => (current === i)%num
         | None => false
         end in
  let notified :=
    negb (animateTransitions props) && differs && onTransitionEnd props
    && negb (displaySameSlide hooks) && negb (isDragging hooks) in
  setIndexCurrent toString props hooks i w
  = (Normal tt,
     mkWorld (set_indexCurrent (Some i) (refs w)) (nodeWhoClaimedTheScroll w)
       (trace w ++ (if notified then [CallOnTransitionEnd] else [])
          ++ styleWrites (refs w) i)).
Proof.
  destruct w as [r slot tr]. cbn [refs nodeWhoClaimedTheScroll trace].
  cbv zeta. unfold setIndexCurrent, handleTransitionEnd, styleWrites.
  unfold bind at 1. cbn [getRefs refs].
  destruct (animateTransitions props), (onTransitionEnd props),
           (displaySameSlide hooks), (isDragging hooks),
           (negb match indexCurrent r with
                 | Some current => (current === i)%num
                 | None => false
                 end),
           (containerNode r) as [container|];
    cbn; unfold emit; cbn; rewrite ?app_nil_r, <- ?app_assoc; reflexivity.
Qed.

(** X13. [setIndexCurrent] always completes normally, records the index in
    [indexCurrent] and leaves the other refs and the claim.  It calls the
    transition-end callback exactly when transitions are not animated, the
    index differs from the recorded one, the callback is supplied, the
    slide is not the same as displayed and no drag is going on; it then
    writes the transform if the container is mounted, and nothing more. *)
Theorem setIndexCurrent_notifies_iff (i : number) (w : World) :
  let result := setIndexCurrent toString props hooks i w in
  let differs :=
    match indexCurrent (refs w) with
    | Some current => (current === i)%num = false
    | None => True
    end in
  fst result = Normal tt
  /\ refs (snd result) = set_indexCurrent (Some i) (refs w)
  /\ nodeWhoClaimedTheScroll (snd result) = nodeWhoClaimedTheScroll w
  /\ (In CallOnTransitionEnd (trace (snd result))
      <-> In CallOnTransitionEnd (trace w)
          \/ (animateTransitions props = false /\ differs
              /\ onTransitionEnd props = true
              /\ displaySameSlide hooks = false /\ isDragging hooks = false))
  /\ (containerNode (refs w) = None ->
      forall node text,
        In (SetTransform node text) (trace (snd result))
        -> In (SetTransform node text) (trace w)).
Proof.
  cbv zeta. rewrite setIndexCurrent_outcome. cbn [fst snd refs nodeWhoClaimedTheScroll trace].
  do 3 (split; [reflexivity|]). split.
  - rewrite !in_app_iff.
    assert (Hs : ~ In CallOnTransitionEnd (styleWrites (refs w) i)).
    { unfold styleWrites. destruct (containerNode (refs w)); cbn;
        intros H; repeat (destruct H as [H | H]; try discriminate H); exact H. }
    destruct (animateTransitions props), (onTransitionEnd props),
             (displaySameSlide hooks), (isDragging hooks),
             (indexCurrent (refs w)) as [current|];
      try destruct (current === i)%num;
      cbn; intuition discriminate.
  - intros Hc node text. unfold styleWrites. rewrite Hc, app_nil_r, in_app_iff.
    intros [H | H]; [exact H|].
    destruct (_ && _); cbn in H; intuition discriminate.
Qed.

(** X14. After [setIndexCurrent(i)] with [i] a number equal to itself (not
    [NaN]), a second [setIndexCurrent(i)] never calls the transition-end
    callback: it keeps the refs and only writes the transform again. *)
Theorem setIndexCurrent_twice (i : number) (w : World) :
  (i === i)%num = true ->
  let once := snd (setIndexCurrent toString props hooks i w) in
  setIndexCurrent toString props hooks i once
  = (Normal tt,
     mkWorld (refs once) (nodeWhoClaimedTheScroll once)
       (trace once ++ styleWrites (refs w) i)).
Proof.
  intros Hi. cbv zeta. rewrite !setIndexCurrent_outcome.
  cbn [snd refs nodeWhoClaimedTheScroll trace set_indexCurrent indexCurrent].
  rewrite Hi. cbn [negb andb]. rewrite andb_false_r. cbn.
  unfold styleWrites. cbn [containerNode]. reflexivity.
Qed.

(** X15. The mount callback is [setIndexCurrent(index)], preceded outside
    production by one [console.warn]: it completes normally whatever the
    index is, in or out of bounds, and records it. *)
Theorem useMount_sets_the_index (NODE_ENV : string) (w : World) :
  let warned :=
    if String.eqb NODE_ENV "production" then []
    else [ConsoleWarn
            [ArgBoolean (geb (index props) zero
                         && leb (index props) (Children_count (children props)));
             ArgString
               ("react-swipeable-view: the new index: "
                ++ toString (index props) ++ " is out of bounds: [0-"
                ++ toString (Children_count (children props)) ++ "].")]] in
  useMount toString props hooks NODE_ENV w
  = setIndexCurrent toString props hooks (index props)
      (mkWorld (refs w) (nodeWhoClaimedTheScroll w) (trace w ++ warned))
  /\ fst (useMount toString props hooks NODE_ENV w) = Normal tt
  /\ indexCurrent (refs (snd (useMount toString props hooks NODE_ENV w)))
     = Some (index props).
Proof.
  cbv zeta.
  assert (E : useMount toString props hooks NODE_ENV w
              = setIndexCurrent toString props hooks (index props)
                  (mkWorld (refs w) (nodeWhoClaimedTheScroll w)
                     (trace w ++
                      (if String.eqb NODE_ENV "production" then []
                       else [ConsoleWarn
                               [ArgBoolean (geb (index props) zero
                                  && leb (index props)
                                       (Children_count (children props)));
                                ArgString
                                  ("react-swipeable-view: the new index: "
                                   ++ toString (index props)
                                   ++ " is out of bounds: [0-"
                                   ++ toString (Children_count (children props))
                                   ++ "].")]])))).
  { destruct w as [r slot tr]. cbn [refs nodeWhoClaimedTheScroll trace].
    unfold useMount, checkIndexBounds, bind, when_, call.
    destruct (String.eqb NODE_ENV "production"); cbn [negb ret emit refs
      nodeWhoClaimedTheScroll trace]; rewrite ?app_nil_r;
      rewrite !setIndexCurrent_outcome; reflexivity. }
  split; [exact E|]. rewrite E, setIndexCurrent_outcome.
  split; reflexivity.
Qed.

End SetIndex.

(** Index 2 set twice on the axis x. *)
Lemma setIndexCurrent_twice_witness :
  (ofZ 2 === ofZ 2)%num = true
  /\ setIndexCurrent Printing.Number_toString Example.props Example.hooks
       (ofZ 2)
       (snd (setIndexCurrent Printing.Number_toString Example.props
               Example.hooks (ofZ 2) (mkWorld Example.startedRefs None [])))
     = (Normal tt,
        mkWorld (set_indexCurrent (Some (ofZ 2)) Example.startedRefs) None
          [SetWebkitTransform Example.container "translate(-200%, 0)";
           SetTransform Example.container "translate(-200%, 0)";
           SetWebkitTransform Example.container "translate(-200%, 0)";
           SetTransform Example.container "translate(-200%, 0)"]).
Proof.
  split; [reflexivity|].
  exact (setIndexCurrent_twice Printing.Number_toString Example.props
           Example.hooks (ofZ 2) (mkWorld Example.startedRefs None [])
           eq_refl).
Defined.

(** ** The bounds that are checked *)

Lemma leb_integers (a b : Z) : leb (ofZ a) (ofZ b) = (a <=? b)%Z.
Proof.
  unfold leb, ofZ. destruct (Z.leb_spec a b) as [H | H].
  - apply Qle_bool_iff. rewrite <- Zle_Qle. exact H.
  - destruct (Qle_bool (inject_Z a) (inject_Z b)) eqn:E; [|reflexivity].
    apply Qle_bool_iff in E. rewrite <- Zle_Qle in E. lia.
Qed.

(** X16. For an integer index the condition [checkIndexBounds] prints is
    true exactly when [0 <= index <= childrenCount]: the number of children
    itself, one past the last child, is reported as in bounds; and the
    condition printed for [NaN] is false. *)
Theorem checkIndexBounds_condition
    (toString : number -> string) (i : Z) (children : list ReactNode)
    (w : World) :
  (exists message : string,
     checkIndexBounds toString (ofZ i) children w
     = (Normal tt,
        mkWorld (refs w) (nodeWhoClaimedTheScroll w)
          (trace w
           ++ [ConsoleWarn
                 [ArgBoolean ((0 <=? i)%Z
                              && (i <=? Z.of_nat (List.length children))%Z);
                  ArgString message]])))
  /\ (exists message : string,
        checkIndexBounds toString NaN children w
        = (Normal tt,
           mkWorld (refs w) (nodeWhoClaimedTheScroll w)
             (trace w ++ [ConsoleWarn [ArgBoolean false; ArgString message]]))).
Proof.
  unfold checkIndexBounds, emit, Children_count, geb. split.
  - change zero with (ofZ 0). rewrite !leb_integers. eexists. reflexivity.
  - eexists. reflexivity.
Qed.

(** ** More on the rotation *)



(** X18. A coordinate that is [NaN] spoils the whole sample: on every axis
    both rotated coordinates are [NaN]. *)
Theorem rotation_of_NaN (a : Axis) (t : Touch) :
  pageX t = NaN \/ pageY t = NaN ->
  applyRotationMatrix t a = mkTouch NaN NaN.
Proof.
  destruct t as [tx ty]. cbn [pageX pageY].
  intros [-> | ->]; destruct a; cbn; try reflexivity;
    first [destruct tx; reflexivity | destruct ty; reflexivity].
Qed.

Lemma rotation_of_NaN_witness :
  (pageX (mkTouch NaN (ofZ 5)) = NaN \/ pageY (mkTouch NaN (ofZ 5)) = NaN)
  /\ applyRotationMatrix (mkTouch NaN (ofZ 5)) AxisXReverse = mkTouch NaN NaN.
Proof.
  split; [left; reflexivity|].
  exact (rotation_of_NaN AxisXReverse (mkTouch NaN (ofZ 5)) (or_introl eq_refl)).
Defined.

(** X19. The matrices of x, x-reverse and y are their own inverses: rotating
    a finite sample twice gives it back.  The matrix of y-reverse is a
    quarter turn: rotating twice gives the opposite sample, and only four
    rotations give the sample back. *)
Theorem rotation_twice (a : Axis) (px py : Q) :
  let t := mkTouch (Num px) (Num py) in
  let twice := applyRotationMatrix (applyRotationMatrix t a) a in
  match a with
  | AxisYReverse =>
      same_touch twice (touch_neg t)
      /\ same_touch (applyRotationMatrix (applyRotationMatrix twice a) a) t
  | _ => same_touch twice t
  end.
Proof.
  destruct a; cbn; unfold same_touch; cbn; repeat split; ring.
Qed.

(** ** The tables of the axes agree *)

(** X20. The tables of [axisProperties] agree with each other: an axis
    measures [width], [scrollLeft], [scrollWidth] and [clientWidth] and
    hides [overflowX] together, or the four vertical ones together, and the
    flex direction is a row exactly in the first case.  The reverse of an
    axis has the same five properties, the reversed flex direction, and a
    matrix that differs by the sign of its first row. *)
Theorem axis_tables_agree (a : Axis) :
  let horizontal := axisProperties.length a = axisProperties.width in
  (horizontal <-> axisProperties.root a = axisProperties.overflowX)
  /\ (horizontal <-> axisProperties.scrollPosition a = axisProperties.scrollLeft)
  /\ (horizontal <-> axisProperties.scrollLength a = axisProperties.scrollWidth)
  /\ (horizontal <-> axisProperties.clientLength a = axisProperties.clientWidth)
  /\ (horizontal <-> is_vertical a = false)
  /\ (horizontal <->
      axisProperties.flexDirection a = axisProperties.row
      \/ axisProperties.flexDirection a = axisProperties.row_reverse)
  /\ axisProperties.length (reverseAxis a) = axisProperties.length a
  /\ axisProperties.root (reverseAxis a) = axisProperties.root a
  /\ axisProperties.scrollPosition (reverseAxis a) = axisProperties.scrollPosition a
  /\ axisProperties.scrollLength (reverseAxis a) = axisProperties.scrollLength a
  /\ axisProperties.clientLength (reverseAxis a) = axisProperties.clientLength a
  /\ axisProperties.flexDirection (reverseAxis a)
     = reverseFlex (axisProperties.flexDirection a)
  /\ axisProperties.row_y (axisProperties.rotationMatrix (reverseAxis a))
     = axisProperties.row_y (axisProperties.rotationMatrix a)
  /\ axisProperties.row_x (axisProperties.rotationMatrix (reverseAxis a))
     = (let r := axisProperties.row_x (axisProperties.rotationMatrix a) in
        (- fst r, - snd r)%Z).
Proof.
  destruct a; cbn; repeat split; intros; auto; try discriminate;
    try (destruct H; discriminate).
Qed.

(** ** More on the modulo helper *)

Lemma same_trans (a b c : number) : a ≡ b -> b ≡ c -> a ≡ c.
Proof.
  destruct a, b, c; cbn; try tauto. intros H1 H2. rewrite H1. exact H2.
Qed.

Lemma same_sym (a b : number) : a ≡ b -> b ≡ a.
Proof. destruct a, b; cbn; try tauto. intros H. symmetry. exact H. Qed.

(** X21. For a positive integer modulus [m] below [2^53] the helper is
    periodic and fixes the range it maps to: [mod(n + k * m, m)] is
    [mod(n, m)] for all integers [n] and [k] with [n] and [n + k * m] below
    [2^53] in magnitude, and [mod(n, m)] is [n] when [0 <= n < m]; so
    stepping back from index 0 among [m] slides gives [m - 1] and stepping
    forward from [m - 1] gives 0. *)
Theorem mod_periodic (n k m : Z) :
  (0 < m < 2 ^ 53)%Z ->
  (Z.abs n < 2 ^ 53)%Z ->
  (Z.abs (n + k * m) < 2 ^ 53)%Z ->
  mod_ (ofZ (n + k * m)) (ofZ m) ≡ mod_ (ofZ n) (ofZ m)
  /\ ((0 <= n < m)%Z -> mod_ (ofZ n) (ofZ m) ≡ ofZ n)
  /\ mod_ (ofZ (0 - 1)) (ofZ m) ≡ ofZ (m - 1)
  /\ mod_ (ofZ (m - 1 + 1)) (ofZ m) ≡ ofZ 0.
Proof.
  intros Hm _ _. split; [|split; [|split]].
  - apply same_trans with (ofZ ((n + k * m) mod m)); [apply mod_integers, Hm|].
    rewrite Z.mod_add by lia. apply same_sym, mod_integers, Hm.
  - intros Hn. apply same_trans with (ofZ (n mod m)); [apply mod_integers, Hm|].
    rewrite Z.mod_small by lia. cbn. reflexivity.
  - apply same_trans with (ofZ ((0 - 1) mod m)); [apply mod_integers, Hm|].
    replace ((0 - 1) mod m)%Z with (m - 1)%Z; [cbn; reflexivity|].
    apply Z.mod_unique with (q := (-1)%Z); lia.
  - apply same_trans with (ofZ ((m - 1 + 1) mod m)); [apply mod_integers, Hm|].
    replace (m - 1 + 1)%Z with (0 + 1 * m)%Z by lia.
    rewrite Z.mod_add by lia. reflexivity.
Qed.

Lemma mod_periodic_witness :
  (0 < 3 < 2 ^ 53)%Z
  /\ (Z.abs 1 < 2 ^ 53)%Z
  /\ (Z.abs (1 + 2 * 3) < 2 ^ 53)%Z
  /\ mod_ (ofZ (1 + 2 * 3)) (ofZ 3) ≡ mod_ (ofZ 1) (ofZ 3)
  /\ ((0 <= 1 < 3)%Z -> mod_ (ofZ 1) (ofZ 3) ≡ ofZ 1)
  /\ mod_ (ofZ (0 - 1)) (ofZ 3) ≡ ofZ (3 - 1)
  /\ mod_ (ofZ (3 - 1 + 1)) (ofZ 3) ≡ ofZ 0.
Proof.
  split; [split; reflexivity|]. split; [reflexivity|]. split; [reflexivity|].
  exact (mod_periodic 1 2 3 (conj eq_refl eq_refl) eq_refl eq_refl).
Defined.

Lemma Qtrunc_comp (a b : Q) : a == b -> Qtrunc a = Qtrunc b.
Proof.
  intros H. unfold Qtrunc.
  assert (Hs : (Qnum a <? 0)%Z = (Qnum b <? 0)%Z).
  { unfold Qeq in H.
    destruct (Z.ltb_spec (Qnum a) 0), (Z.ltb_spec (Qnum b) 0);
      try reflexivity; exfalso; nia. }
  rewrite Hs. destruct (Qnum b <? 0)%Z.
  - apply Qceiling_comp, H.
  - apply Qfloor_comp, H.
Qed.

(** On integers [%] is the remainder of the truncated division, for a
    negative modulus as well. *)
Lemma rem_integers_neg (n : Z) (p : positive) :
  (ofZ n %% ofZ (Zneg p))%num ≡ ofZ (Z.rem n (Zneg p)).
Proof.
  unfold Number.rem, ofZ. cbn [Qis_zero inject_Z Qnum Z.eqb].
  assert (E : inject_Z n / inject_Z (Z.neg p)
              == inject_Z (- n) / inject_Z (Z.pos p)).
  { change (Z.neg p) with (- Z.pos p)%Z. rewrite !inject_Z_opp.
    field. discriminate. }
  rewrite (Qtrunc_comp _ _ E), Qtrunc_quot.
  cbn [same].
  rewrite (Z.rem_eq n (Zneg p)) by discriminate.
  change (Z.neg p) with (- Z.pos p)%Z.
  rewrite Z.quot_opp_l, Z.quot_opp_r by discriminate.
  unfold Z.sub.
  rewrite inject_Z_plus, !inject_Z_opp, inject_Z_mult, !inject_Z_opp.
  ring.
Qed.

(** X22. Outside the integers and the positive moduli the helper does not
    wrap.  A zero modulus, or [NaN] on either side, gives [NaN]; under an
    infinite modulus a negative integer gives [Infinity]; and for a negative
    integer modulus [m] of magnitude at most [2^52] and a negative integer
    [n] above [-2^53] that [m] does not divide, the result is an integer
    below [m], not an index. *)
Theorem mod_outside_its_domain (a : number) (p q : positive) :
  (Z.pos p < 2 ^ 53)%Z ->
  (Z.pos q <= 2 ^ 52)%Z ->
  Z.rem (Z.neg p) (Z.neg q) <> 0%Z ->
  mod_ a zero = NaN
  /\ mod_ a NaN = NaN
  /\ mod_ NaN a = NaN
  /\ mod_ (ofZ (Z.neg p)) Infinity = Infinity
  /\ exists r : Z,
       mod_ (ofZ (Z.neg p)) (ofZ (Z.neg q)) ≡ ofZ r /\ (r < Z.neg q)%Z.
Proof.
  intros _ Hq52 Hr.
  split; [destruct a; reflexivity|].
  split; [destruct a; reflexivity|].
  split; [reflexivity|].
  split; [reflexivity|].
  pose proof (rem_integers_neg (Z.neg p) q) as Hrem.
  pose proof (Z.rem_bound_abs (Z.neg p) (Z.neg q) ltac:(lia)) as Habs.
  pose proof (Z.rem_nonpos (Z.neg p) (Z.neg q) ltac:(lia) ltac:(lia)) as Hle.
  exists (Z.rem (Z.neg p) (Z.neg q) + Z.neg q)%Z. split; [|lia].
  unfold mod_.
  destruct (ofZ (Z.neg p) %% ofZ (Z.neg q))%num as [x| | |] eqn:Eq;
    cbn [same ofZ] in Hrem; try contradiction.
  unfold Number.ltb, Number.zero, Qltb.
  destruct (Qle_bool 0 x) eqn:Hq; cbn [negb].
  - apply Qle_bool_iff in Hq. rewrite Hrem in Hq.
    change 0 with (inject_Z 0) in Hq. rewrite <- Zle_Qle in Hq. lia.
  - apply (add_double_integers x _ (Z.neg q) Hrem).
    change (2 ^ 53)%Z with (2 * 2 ^ 52)%Z. remember (2 ^ 52)%Z as P. lia.
Qed.

(** [mod(-5, -3)] is [-5]. *)
Lemma mod_outside_its_domain_witness :
  (5 < 2 ^ 53)%Z
  /\ (3 <= 2 ^ 52)%Z
  /\ Z.rem (-5) (-3) <> 0%Z
  /\ mod_ (ofZ 7) zero = NaN
  /\ mod_ (ofZ 7) NaN = NaN
  /\ mod_ NaN (ofZ 7) = NaN
  /\ mod_ (ofZ (-5)) Infinity = Infinity
  /\ exists r : Z, mod_ (ofZ (-5)) (ofZ (-3)) ≡ ofZ r /\ (r < -3)%Z.
Proof.
  split; [reflexivity|]. split; [discriminate|].
  split; [discriminate|].
  exact (mod_outside_its_domain (ofZ 7) 5 3 eq_refl
           ltac:(discriminate) ltac:(discriminate)).
Defined.

(** ** The listeners *)

Section ListenerHelper.

Import Listeners.

Lemma sameListener_refl (l : Listener) : sameListener l l = true.
Proof.
  unfold sameListener.
  rewrite !Nat.eqb_refl, String.eqb_refl, Bool.eqb_reflx. reflexivity.
Qed.

Lemma remove_absent (l : Listener) (g : Registry) :
  existsb (sameListener l) g = false -> dom_removeEventListener l g = g.
Proof.
  unfold dom_removeEventListener.
  induction g as [|k g IH]; cbn; [reflexivity|].
  intros H. apply orb_false_iff in H. destruct H as [Hk Hg].
  rewrite Hk. cbn. rewrite (IH Hg). reflexivity.
Qed.

Lemma remove_after_add (l : Listener) (g : Registry) :
  dom_removeEventListener l (dom_addEventListener l g)
  = dom_removeEventListener l g.
Proof.
  unfold dom_addEventListener.
  destruct (existsb (sameListener l) g); [reflexivity|].
  unfold dom_removeEventListener. rewrite filter_app. cbn.
  rewrite sameListener_refl. cbn. apply app_nil_r.
Qed.

Lemma absent_after_remove (l : Listener) (g : Registry) :
  existsb (sameListener l) (dom_removeEventListener l g) = false.
Proof.
  unfold dom_removeEventListener.
  induction g as [|k g IH]; cbn; [reflexivity|].
  destruct (sameListener l k) eqn:E; cbn; [exact IH|].
  rewrite E. exact IH.
Qed.

(** X23. On a node, the handle the helper returns undoes the registration:
    when the listener was not registered before, [remove()] after
    [addEventListener] gives back the registrations as they were. *)
Theorem addEventListener_then_remove
    (n : Node) (event : string) (handler : nat) (options : option Options)
    (g : Registry) :
  existsb (sameListener (mkListener n event handler (captureOf options))) g
  = false ->
  exists h : ListenerReturnType,
    addEventListener (ANode n) event handler options g
    = (Normal h, g ++ [mkListener n event handler (captureOf options)])
    /\ remove h (g ++ [mkListener n event handler (captureOf options)])
       = (Normal tt, g).
Proof.
  intros Hfresh. eexists. split.
  - unfold addEventListener, dom_addEventListener. rewrite Hfresh. reflexivity.
  - cbn [remove]. f_equal.
    pose proof (remove_after_add
                  (mkListener n event handler (captureOf options)) g) as H.
    unfold dom_addEventListener in H. rewrite Hfresh in H.
    rewrite H. apply remove_absent, Hfresh.
Qed.

(** X24. In every case the listener is registered once after the helper ran
    and is not registered after [remove()], and [remove()] leaves what
    removing the listener from the former registrations leaves: the handle
    of a registration made twice takes the first registration away too.
    [remove()] a second time changes nothing. *)
Theorem addEventListener_remove_unregisters
    (n : Node) (event : string) (handler : nat) (options : option Options)
    (g : Registry) :
  let l := mkListener n event handler (captureOf options) in
  exists (h : ListenerReturnType) (g' : Registry),
    addEventListener (ANode n) event handler options g = (Normal h, g')
    /\ existsb (sameListener l) g' = true
    /\ List.length (filter (sameListener l) g')
       = Nat.max 1 (List.length (filter (sameListener l) g))
    /\ remove h g' = (Normal tt, dom_removeEventListener l g)
    /\ existsb (sameListener l) (snd (remove h g')) = false
    /\ remove h (snd (remove h g')) = remove h g'.
Proof.
  cbv zeta. eexists _, _. split; [reflexivity|].
  set (l := mkListener n event handler (captureOf options)).
  split; [|split; [|split; [|split]]].
  - unfold dom_addEventListener. destruct (existsb (sameListener l) g) eqn:E.
    + exact E.
    + rewrite existsb_app. cbn. rewrite sameListener_refl.
      rewrite orb_true_r. reflexivity.
  - unfold dom_addEventListener. destruct (existsb (sameListener l) g) eqn:E.
    + apply existsb_exists in E. destruct E as (k & Hin & Hk).
      assert (Hf : In k (filter (sameListener l) g))
        by (apply filter_In; auto).
      destruct (filter (sameListener l) g); [destruct Hf | cbn; lia].
    + rewrite filter_app. cbn. rewrite sameListener_refl.
      assert (Hn : filter (sameListener l) g = []).
      { induction g as [|k g IH]; [reflexivity|].
        cbn in E. apply orb_false_iff in E. destruct E as [Ek Eg].
        cbn. rewrite Ek. exact (IH Eg). }
      rewrite Hn. reflexivity.
  - cbn [remove]. rewrite remove_after_add. reflexivity.
  - cbn [remove snd]. apply absent_after_remove.
  - cbn [remove snd]. rewrite remove_after_add.
    rewrite (remove_absent l (dom_removeEventListener l g));
      [reflexivity | apply absent_after_remove].
Qed.

(** X25. The effect of the mount throws on its first statement: the helper
    receives the ref object [containerNode], not a node, and calling its
    missing [addEventListener] fails.  No listener is registered, for
    [transitionend] or for [touchmove], the two refs keep the handles they
    had and no timer is set. *)
Theorem mountEffect_throws_at_once (r : Refs) (s : EffectState) :
  exists e : Error, mountEffect r s = (Throw e, s).
Proof.
  destruct s as [g tl tm ti]. unfold mountEffect, bindE, register.
  cbn. eexists. reflexivity.
Qed.

End ListenerHelper.

(** A first registration of a [touchmove] listener on the root. *)
Lemma addEventListener_then_remove_witness :
  existsb
    (Listeners.sameListener
       (Listeners.mkListener Example.root "touchmove" 2
          (Listeners.captureOf (Some (Listeners.mkOptions false false)))))
    [Listeners.mkListener Example.container "transitionend" 1 false]
  = false
  /\ exists h : Listeners.ListenerReturnType,
       Listeners.addEventListener (Listeners.ANode Example.root) "touchmove" 2
         (Some (Listeners.mkOptions false false))
         [Listeners.mkListener Example.container "transitionend" 1 false]
       = (Normal h,
          [Listeners.mkListener Example.container "transitionend" 1 false]
          ++ [Listeners.mkListener Example.root "touchmove" 2 false])
       /\ Listeners.remove h
            ([Listeners.mkListener Example.container "transitionend" 1 false]
             ++ [Listeners.mkListener Example.root "touchmove" 2 false])
          = (Normal tt,
             [Listeners.mkListener Example.container "transitionend" 1 false]).
Proof.
  split; [reflexivity|].
  exact (addEventListener_then_remove Example.root "touchmove" 2
           (Some (Listeners.mkOptions false false))
           [Listeners.mkListener Example.container "transitionend" 1 false]
           eq_refl).
Defined.

(** ** Reading the index back from a matrix *)

Section MatrixText.

Import TransformText.

Lemma split_not_nil (sep : ascii) (s : string) : JSString.split sep s <> [].
Proof.
  destruct s as [|c rest]; cbn; [discriminate|].
  destruct (Ascii.eqb c sep); [discriminate|].
  destruct (JSString.split sep rest); discriminate.
Qed.

(** A prefix without the separator stays in the first piece. *)
Lemma split_free_prefix (sep : ascii) (s1 s2 : string) :
  free sep s1 = true ->
  JSString.split sep (s1 ++ s2)
  = (s1 ++ hd EmptyString (JSString.split sep s2))%string
    :: tl (JSString.split sep s2).
Proof.
  induction s1 as [|c rest IH]; cbn [free append]; intros Hf.
  - pose proof (split_not_nil sep s2) as Hn.
    destruct (JSString.split sep s2); [contradiction | reflexivity].
  - apply andb_true_iff in Hf. destruct Hf as [Hc Hrest].
    apply negb_true_iff in Hc.
    cbn [JSString.split]. rewrite Hc, (IH Hrest). reflexivity.
Qed.

Lemma append_empty_r (s : string) : (s ++ "")%string = s.
Proof. induction s as [|c s IH]; cbn; [reflexivity | now rewrite IH]. Qed.

Lemma digitChar_cases (d : nat) :
  (d < 10)%nat ->
  JSString.digit (digitChar d) = Some (Z.of_nat d)
  /\ JSString.is_white_space (digitChar d) = false
  /\ Ascii.eqb (digitChar d) "-" = false
  /\ Ascii.eqb (digitChar d) "+" = false
  /\ Ascii.eqb (digitChar d) "(" = false
  /\ Ascii.eqb (digitChar d) ")" = false
  /\ Ascii.eqb (digitChar d) "," = false.
Proof.
  intros Hd.
  do 10 (destruct d as [|d]; [repeat split|]).
  lia.
Qed.

Lemma digitsText_free (c : ascii) (ds : list nat) :
  (c = "(" \/ c = ")" \/ c = ",")%char ->
  Forall (fun d => (d < 10)%nat) ds ->
  free c (digitsText ds) = true.
Proof.
  intros Hc Hds. induction Hds as [|d ds Hd _ IH]; [reflexivity|].
  cbn [digitsText fold_right free]. fold (digitsText ds). rewrite IH.
  destruct (digitChar_cases d Hd) as (_ & _ & _ & _ & H1 & H2 & H3).
  destruct Hc as [-> | [-> | ->]]; rewrite ?H1, ?H2, ?H3; reflexivity.
Qed.

Lemma integerText_free (c : ascii) (negative : bool) (ds : list nat) :
  (c = "(" \/ c = ")" \/ c = ",")%char ->
  Forall (fun d => (d < 10)%nat) ds ->
  free c (integerText negative ds) = true.
Proof.
  intros Hc Hds. destruct negative; cbn [integerText free];
    rewrite (digitsText_free c ds Hc Hds); [|reflexivity].
  destruct Hc as [-> | [-> | ->]]; reflexivity.
Qed.

Lemma leading_digits_text (ds : list nat) (acc : Z) :
  Forall (fun d => (d < 10)%nat) ds ->
  JSString.leading_digits (digitsText ds) (Some acc)
  = Some (fold_left (fun a d => (10 * a + Z.of_nat d)%Z) ds acc).
Proof.
  intros Hds. revert acc.
  induction Hds as [|d ds Hd _ IH]; intros acc; [reflexivity|].
  cbn [digitsText fold_right JSString.leading_digits fold_left].
  fold (digitsText ds).
  destruct (digitChar_cases d Hd) as (-> & _). apply IH.
Qed.

Lemma fold_digits_nonneg (ds : list nat) (acc : Z) :
  (0 <= acc)%Z ->
  (0 <= fold_left (fun a d => (10 * a + Z.of_nat d)%Z) ds acc)%Z.
Proof.
  revert acc. induction ds as [|d ds IH]; intros acc Hacc; [exact Hacc|].
  cbn [fold_left]. apply IH. lia.
Qed.

(** Reading back the text of an integer below [2^53] in magnitude, after a
    space, gives the integer. *)
Lemma parseInt_integerText (negative : bool) (ds : list nat) :
  Forall (fun d => (d < 10)%nat) ds -> ds <> [] ->
  (digitsValue ds < 2 ^ 53)%Z ->
  JSString.parseInt (String " " (integerText negative ds))
  = ofZ (integerValue negative ds).
Proof.
  intros Hds Hne Hsafe.
  pose proof (fold_digits_nonneg ds 0 ltac:(lia)) as Hpos.
  fold (digitsValue ds) in Hpos.
  destruct ds as [|d ds]; [contradiction|].
  inversion Hds as [|? ? Hd Hrest]; subst.
  destruct (digitChar_cases d Hd) as (Hdig & Hws & Hminus & Hplus & _).
  unfold JSString.parseInt.
  cbn [JSString.trim_start]. change (JSString.is_white_space " ") with true.
  cbv iota.
  destruct negative; cbn [integerText digitsText fold_right];
    fold (digitsText ds).
  - cbn [JSString.trim_start]. change (JSString.is_white_space "-") with false.
    cbv iota. cbn [JSString.leading_digits]. rewrite Hdig.
    rewrite (leading_digits_text ds _ Hrest).
    unfold integerValue, digitsValue in *. cbn [fold_left] in *.
    rewrite (toDouble_integer _ _ (Qeq_refl _)) by lia.
    apply (f_equal ofZ). lia.
  - cbn [JSString.trim_start]. rewrite Hws.
    assert (Hsign :
      (match String (digitChar d) (digitsText ds) with
       | String "-" rest => ((-1)%Z, rest)
       | String "+" rest => (1%Z, rest)
       | _ => (1%Z, String (digitChar d) (digitsText ds))
       end) = (1%Z, String (digitChar d) (digitsText ds))).
    { destruct (digitChar d) as [b0 b1 b2 b3 b4 b5 b6 b7] eqn:E.
      destruct b0, b1, b2, b3, b4, b5, b6, b7; try reflexivity;
        cbn in Hminus, Hplus; discriminate. }
    rewrite Hsign. cbn [JSString.leading_digits]. rewrite Hdig.
    rewrite (leading_digits_text ds _ Hrest).
    unfold integerValue, digitsValue in *. cbn [fold_left] in *.
    rewrite (toDouble_integer _ _ (Qeq_refl _)) by lia.
    apply (f_equal ofZ). lia.
Qed.

(** The six values of the matrix of a translation. *)
Lemma matrixText_values (tx ty : string) :
  free "(" tx = true -> free ")" tx = true -> free "," tx = true ->
  free "(" ty = true -> free ")" ty = true -> free "," ty = true ->
  exists inner : string,
    nth_error (JSString.split "(" (matrixText tx ty)) 1 = Some inner
    /\ transformValuesOf inner
       = ["1"; " 0"; " 0"; " 1"; String " " tx; String " " ty]%string.
Proof.
  intros H1 H2 H3 H4 H5 H6.
  exists ("1, 0, 0, 1, " ++ tx ++ ", " ++ ty ++ ")")%string. split.
  - unfold matrixText. cbn [append JSString.split Ascii.eqb Bool.eqb].
    rewrite (split_free_prefix "(" tx _ H1). cbn [JSString.split Ascii.eqb Bool.eqb].
    rewrite (split_free_prefix "(" ty _ H4). reflexivity.
  - unfold transformValuesOf. cbn [append JSString.split Ascii.eqb Bool.eqb].
    rewrite (split_free_prefix ")" tx _ H2). cbn [JSString.split Ascii.eqb Bool.eqb].
    rewrite (split_free_prefix ")" ty _ H5). cbn [JSString.split Ascii.eqb Bool.eqb hd tl].
    cbn [append JSString.split Ascii.eqb Bool.eqb].
    rewrite (split_free_prefix "," tx _ H3). cbn [JSString.split Ascii.eqb Bool.eqb hd tl].
    rewrite (split_free_prefix "," ty _ H6). cbn.
    rewrite ?append_empty_r. reflexivity.
Qed.

Variable dom : Dom.
Variable props : Props.

Local Arguments applyRotationMatrix : simpl never.
Local Arguments computedTransform : simpl never.
Local Arguments hasTransform : simpl never.
Local Arguments transformValuesOf : simpl never.
Local Arguments innerLength : simpl never.
Local Arguments or_else : simpl never.
Local Arguments JSString.split : simpl never.
Local Arguments JSString.parseInt : simpl never.
Local Arguments nth_error : simpl never.
Local Arguments Number.div : simpl never.
Local Arguments Number.neg : simpl never.
Local Arguments matrixText : simpl never.
Local Arguments integerText : simpl never.

(** X26. When the computed transform of the container is the matrix of a
    translation by the integers [tx] and [ty], both below [2^53] in
    magnitude so that reading them back is exact, the start handler completes
    normally and reads the index back from it: [startIndex] is the opposite
    of the translation along the swipe axis (the rotated translation)
    divided by the length of the root less its paddings, or 0 when that
    quotient is falsy.  The four values of the linear part are not read. *)
Theorem startIndex_read_back_from_matrix
    (event : TouchEvent) (w : World) (t : Touch) (ts : list Touch)
    (container root : Node) (negX negY : bool) (digitsX digitsY : list nat) :
  touches event = t :: ts ->
  containerNode (refs w) = Some container ->
  rootNode (refs w) = Some root ->
  computedTransform dom container
  = matrixText (integerText negX digitsX) (integerText negY digitsY) ->
  Forall (fun d => (d < 10)%nat) digitsX -> digitsX <> [] ->
  Forall (fun d => (d < 10)%nat) digitsY -> digitsY <> [] ->
  (digitsValue digitsX < 2 ^ 53)%Z ->
  (digitsValue digitsY < 2 ^ 53)%Z ->
  let translation :=
    mkTouch (ofZ (integerValue negX digitsX)) (ofZ (integerValue negY digitsY)) in
  let along := pageX (applyRotationMatrix translation (axis props)) in
  let length :=
    innerLength dom
      (Some (getBoundingClientRect dom root (axisProperties.length (axis props))))
      root in
  fst (handleSwipeStart dom props event w) = Normal tt
  /\ startIndex (refs (snd (handleSwipeStart dom props event w)))
     = or_else (- along / length)%num zero.
Proof.
  intros Ht Hc Hr Htext HdX HnX HdY HnY HsX HsY. cbv zeta.
  destruct (matrixText_values (integerText negX digitsX) (integerText negY digitsY))
    as (inner & Hinner & Hvalues);
    try (apply integerText_free; [auto | assumption]).
  destruct w as [r slot tr]. cbn [refs] in *.
  unfold handleSwipeStart, firstTouch. rewrite Ht.
  change (nth_error (t :: ts) 0) with (Some t). cbn.
  rewrite Hc. cbn. rewrite Htext.
  change (hasTransform (matrixText (integerText negX digitsX)
                                   (integerText negY digitsY))) with true.
  cbn. rewrite Hinner. cbn. rewrite Hr. cbn.
  unfold tranformNormalized. rewrite Hvalues.
  change (JSString.parseInt_at
            ["1"; " 0"; " 0"; " 1"; String " " (integerText negX digitsX);
             String " " (integerText negY digitsY)]%string 4)
    with (JSString.parseInt (String " " (integerText negX digitsX))).
  change (JSString.parseInt_at
            ["1"; " 0"; " 0"; " 1"; String " " (integerText negX digitsX);
             String " " (integerText negY digitsY)]%string 5)
    with (JSString.parseInt (String " " (integerText negY digitsY))).
  rewrite !parseInt_integerText by assumption.
  split; reflexivity.
Qed.

End MatrixText.

(** The container of the example 300 pixels to the left, under a root of
    length 300: the gesture starts from index 1. *)
Lemma startIndex_read_back_from_matrix_witness :
  let dom := Example.movingDom (ofZ 300) in
  let event := Example.moveTo 100 100 in
  let w := mkWorld Example.idleRefs None [] in
  touches event = [mkTouch (ofZ 100) (ofZ 100)]
  /\ containerNode (refs w) = Some Example.container
  /\ rootNode (refs w) = Some Example.root
  /\ computedTransform dom Example.container
     = TransformText.matrixText (TransformText.integerText true [3; 0; 0]%nat)
         (TransformText.integerText false [0]%nat)
  /\ Forall (fun d => (d < 10)%nat) [3; 0; 0]%nat
  /\ [3; 0; 0]%nat <> []
  /\ Forall (fun d => (d < 10)%nat) [0]%nat
  /\ [0]%nat <> []
  /\ (TransformText.digitsValue [3; 0; 0]%nat < 2 ^ 53)%Z
  /\ (TransformText.digitsValue [0]%nat < 2 ^ 53)%Z
  /\ fst (handleSwipeStart dom Example.props event w) = Normal tt
  /\ startIndex (refs (snd (handleSwipeStart dom Example.props event w)))
     = Num (- (1 * -300 + 0 * 0) / (300 + - 0 + - 0)).
Proof.
  cbv zeta.
  assert (H3 : Forall (fun d => (d < 10)%nat) [3; 0; 0]%nat)
    by (repeat (constructor; try lia)).
  assert (H0 : Forall (fun d => (d < 10)%nat) [0]%nat)
    by (repeat (constructor; try lia)).
  do 4 (split; [reflexivity|]).
  split; [exact H3|]. split; [discriminate|].
  split; [exact H0|]. split; [discriminate|].
  do 2 (split; [reflexivity|]).
  exact (startIndex_read_back_from_matrix (Example.movingDom (ofZ 300))
           Example.props (Example.moveTo 100 100)
           (mkWorld Example.idleRefs None [])
           (mkTouch (ofZ 100) (ofZ 100)) [] Example.container Example.root
           true false [3; 0; 0]%nat [0]%nat
           eq_refl eq_refl eq_refl eq_refl
           H3 ltac:(discriminate) H0 ltac:(discriminate) eq_refl eq_refl).
Defined.
